(** * supply-chain-score: the GitHub repository model

    A shallow embedding of [supply_chain_score/model/repo.py] and
    [supply_chain_score/model/githubrepo.py], and the properties of the
    paginated fetch, of URL resolution and of the date helper.

    Python values are modelled as follows.
    - [str] is [string]; the only character the code inspects is ['/'].
    - decoded JSON is the inductive [JSON]; a [dict] is an association list
      with distinct keys in insertion order.
    - an exception is a constructor of [exn], a call that may raise returns
      an [outcome].
    - the logger and the HTTP pool are the two effects: both append to the
      [World], a chronological list of events; what the network answers is
      a function of the requests made so far. *)

From Stdlib Require Import List String Ascii ZArith Lia Bool Arith.
From Stdlib Require Import DecimalString Decimal DecimalNat.
Import ListNotations.

Local Open Scope list_scope.
Local Open Scope string_scope.

(** ** Exceptions and outcomes *)

Inductive exn : Type :=
| IndexError
| KeyError
| TypeError
| ValueError
| AttributeError
| OtherError (what : string).

(** The result of running a piece of Python: a value, an uncaught exception,
    or a loop that was cut off by the fuel of the model. *)
Inductive outcome (A : Type) : Type :=
| Ret (a : A)
| Raise (e : exn)
| OutOfFuel.

Arguments Ret {A} a.
Arguments Raise {A} e.
Arguments OutOfFuel {A}.

Definition obind {A B} (o : outcome A) (k : A -> outcome B) : outcome B :=
  match o with
  | Ret a => k a
  | Raise e => Raise e
  | OutOfFuel => OutOfFuel
  end.

(** ** JSON values, as [json.loads] returns them *)

#[warnings="-register-all"]
Inductive JSON : Type :=
| JNull
| JBool (b : bool)
| JInt (n : Z)
| JFloat (lexeme : string)
| JStr (s : string)
| JArr (items : list JSON)
| JObj (fields : list (string * JSON)).

Fixpoint assoc (k : string) (kv : list (string * JSON)) : option JSON :=
  match kv with
  | [] => None
  | (k', v) :: rest => if String.eqb k k' then Some v else assoc k rest
  end.

(** [v[k]] for a string key [k]. *)
Definition py_getitem (v : JSON) (k : string) : outcome JSON :=
  match v with
  | JObj kv => match assoc k kv with
               | Some x => Ret x
               | None => Raise KeyError
               end
  | _ => Raise TypeError
  end.

Fixpoint chars (s : string) : list JSON :=
  match s with
  | EmptyString => []
  | String c s' => JStr (String c EmptyString) :: chars s'
  end.

(** [len(v)]. *)
Definition py_len (v : JSON) : outcome nat :=
  match v with
  | JArr l => Ret (List.length l)
  | JObj kv => Ret (List.length kv)
  | JStr s => Ret (String.length s)
  | _ => Raise TypeError
  end.

(** [list(v)]: what iterating over [v] yields. *)
Definition py_iter (v : JSON) : outcome (list JSON) :=
  match v with
  | JArr l => Ret l
  | JObj kv => Ret (map (fun p => JStr (fst p)) kv)
  | JStr s => Ret (chars s)
  | _ => Raise TypeError
  end.

(** [data.extend(new_data)]: only a list has the method. *)
Definition py_extend (data new_data : JSON) : outcome JSON :=
  match data with
  | JArr l => obind (py_iter new_data) (fun l' => Ret (JArr (l ++ l')%list))
  | _ => Raise AttributeError
  end.

(** ** Strings *)

(** [s.split(sep)] for a one-character separator: never empty. *)
Fixpoint split (sep : ascii) (s : string) : list string :=
  match s with
  | EmptyString => [EmptyString]
  | String c s' =>
      if Ascii.eqb c sep then EmptyString :: split sep s'
      else match split sep s' with
           | h :: t => String c h :: t
           | [] => [String c EmptyString]
           end
  end.

(** [sep.join(l)]. *)
Fixpoint join (sep : ascii) (l : list string) : string :=
  match l with
  | [] => EmptyString
  | [x] => x
  | x :: rest => x ++ String sep (join sep rest)
  end.

Fixpoint contains (c : ascii) (s : string) : bool :=
  match s with
  | EmptyString => false
  | String c' s' => Ascii.eqb c' c || contains c s'
  end.

(** [l[i]] with Python's negative indices. *)
Definition py_index {A} (l : list A) (i : Z) : outcome A :=
  let n := Z.of_nat (List.length l) in
  let j := if (i <? 0)%Z then (i + n)%Z else i in
  if ((j <? 0) || (n <=? j))%Z then Raise IndexError
  else match nth_error l (Z.to_nat j) with
       | Some x => Ret x
       | None => Raise IndexError
       end.

(** [str(n)] for a non-negative integer. *)
Definition str_of_nat (n : nat) : string :=
  NilEmpty.string_of_uint (Nat.to_uint n).

(** [template.format(a1, a2, ...)] for a template whose only fields are [{}]:
    each [{}] is replaced by the next argument. *)
Fixpoint format (template : string) (args : list string) : string :=
  match template with
  | String "{"%char (String "}"%char rest) =>
      match args with
      | a :: args' => a ++ format rest args'
      | [] => format rest []
      end
  | String c rest => String c (format rest args)
  | EmptyString => EmptyString
  end.

(** ** The world: logger and network *)

Inductive event : Type :=
| Info (msg : string)
| Request (method url : string) (headers : list (string * string)).

Definition World := list event.

Fixpoint requested (w : World) : list string :=
  match w with
  | [] => []
  | Info _ :: w' => requested w'
  | Request _ url _ :: w' => url :: requested w'
  end.

(** What [http.request] does. *)
Inductive Response : Type :=
| MaxRetryError
| OtherFailure (e : exn)
| Responds (body : option JSON).

(** The network answers a request from the URLs requested before it and
    the URL asked for. *)
Definition Network := list string -> string -> Response.

Definition M (A : Type) : Type := World -> outcome A * World.

Definition ret {A} (a : A) : M A := fun w => (Ret a, w).

Definition raise {A} (e : exn) : M A := fun w => (Raise e, w).

Definition bind {A B} (m : M A) (k : A -> M B) : M B :=
  fun w => match m w with
           | (Ret a, w') => k a w'
           | (Raise e, w') => (Raise e, w')
           | (OutOfFuel, w') => (OutOfFuel, w')
           end.

Definition lift {A} (o : outcome A) : M A := fun w => (o, w).

Declare Scope py_scope.
Delimit Scope py_scope with py.
Notation "x <- m ;; k" := (bind m (fun x => k))
  (at level 61, m at next level, right associativity) : py_scope.
Notation "m ;;; k" := (bind m (fun _ => k))
  (at level 61, right associativity) : py_scope.
Local Open Scope py_scope.

(** [self.ctx.logger.info(msg)]. *)
Definition logger_info (msg : string) : M unit :=
  fun w => (Ret tt, (w ++ [Info msg])%list).

(** ** Repo and GithubRepo *)

Module GithubRepo.

Definition max_elements_per_page : nat := 100.
Definition max_pages : nat := 10.

(** The attributes that [Repo.__init__] sets; a collection is [None] or
    what the paginated call returned. *)
Record t : Type := mk {
  url : string;
  owner : string;
  name : string;
  contributors : option JSON;
  forks : option JSON;
  releases : option JSON;
  stars : option JSON;
  issues : option JSON;
  commits : option JSON
}.

Definition _parse_github_url (url : string) (position : Z) (log_text : string)
  : M string :=
  element_parsed <- lift (py_index (split "/" url) position) ;;
  logger_info (format log_text [element_parsed]) ;;;
  ret element_parsed.

Definition get_owner (url : string) : M string :=
  _parse_github_url url (-2) "Getting owner of repo: {}".

Definition get_name (url : string) : M string :=
  _parse_github_url url (-1) "Getting name of repo: {}".

(** Python's truth test on the [extra_params] argument: [None] and the
    empty string are false. *)
Definition truthy (extra_params : option string) : bool :=
  match extra_params with
  | None => false
  | Some EmptyString => false
  | Some (String _ _) => true
  end.

(** [str(x)] of that argument. *)
Definition str_of (extra_params : option string) : string :=
  match extra_params with
  | None => "None"
  | Some e => e
  end.

Definition get_api_url (api_endpoint : string) (extra_params : option string)
  : string :=
  let url := api_endpoint ++ "?" in
  let url := url ++ (if truthy extra_params
                     then format "{}&" [str_of extra_params]
                     else "") in
  let url := url ++ format "per_page={}" [str_of_nat max_elements_per_page] in
  url.

(** [json.loads(response.data.decode('utf-8'))]: a body that is not UTF-8 or
    not JSON is [None] and raises a [ValueError]. *)
Definition json_loads (body : option JSON) : outcome JSON :=
  match body with
  | Some v => Ret v
  | None => Raise ValueError
  end.

Section Fetch.

Variable net : Network.

(** [http.request('GET', url=url, headers=headers)] inside
    [try: ... except urllib3.exceptions.MaxRetryError]: [None] is the
    handler's branch. *)
Definition try_request (url : string) (headers : list (string * string))
  : M (option (option JSON)) :=
  fun w =>
    let w' := (w ++ [Request "GET" url headers])%list in
    match net (requested w) url with
    | MaxRetryError => (Ret None, w')
    | OtherFailure e => (Raise e, w')
    | Responds body => (Ret (Some body), w')
    end.

Definition page_url (url : string) (page_number : nat) : string :=
  url ++ format "&page={}" [str_of_nat page_number].

(** How one pass through the body of [while paginate] ends: at the
    [return data] of the handler, or at the end of the body with the new
    values of the three variables. *)
Inductive control : Type :=
| Return (data : JSON)
| Next (paginate : bool) (data : JSON) (page_number : nat).

(** The body of the [while paginate] loop. *)
Definition loop_body (url : string) (headers : list (string * string))
    (data : JSON) (page_number : nat) : M control :=
  let page_number := (page_number + 1)%nat in
  logger_info (format "Making paginated API call to {}"
                      [page_url url page_number]) ;;;
  response <- try_request (page_url url page_number) headers ;;
  match response with
  | None => ret (Return data)
  | Some body =>
      new_data <- lift (json_loads body) ;;
      n <- lift (py_len new_data) ;;
      let paginate :=
        ((n =? max_elements_per_page) && (page_number <? max_pages))%nat in
      data <- lift (py_extend data new_data) ;;
      ret (Next paginate data page_number)
  end.

(** The two statements after the loop. *)
Definition after_loop (data : JSON) : M (option JSON) :=
  n <- lift (py_len data) ;;
  logger_info (format "Number of elements retrived: {}" [str_of_nat n]) ;;;
  ret (Some data).

(** The [while paginate] loop followed by [after_loop]. *)
Fixpoint paginate_loop (fuel : nat) (url : string)
    (headers : list (string * string))
    (paginate : bool) (data : JSON) (page_number : nat) : M (option JSON) :=
  if paginate then
    match fuel with
    | O => lift OutOfFuel
    | S fuel' =>
        c <- loop_body url headers data page_number ;;
        match c with
        | Return data => ret (Some data)
        | Next paginate data page_number =>
            paginate_loop fuel' url headers paginate data page_number
        end
    end
  else after_loop data.

Definition _paginated_api_call_fuel (fuel : nat) (api_endpoint : string)
    (extra_params : option string) : M (option JSON) :=
  let headers := [("Accept", "application/vnd.github.v3+json")] in
  let url := get_api_url api_endpoint extra_params in
  logger_info (format "Making first API call to {}" [url]) ;;;
  response <- try_request url headers ;;
  match response with
  | None => ret None
  | Some body =>
      data <- lift (json_loads body) ;;
      let page_number := 1 in
      n <- lift (py_len data) ;;
      let paginate := (n =? max_elements_per_page)%nat in
      paginate_loop fuel url headers paginate data page_number
  end.

(** The loop runs at most [max_pages - 1] times, so [max_pages] is fuel
    enough (see [FetchFacts.call_fuel_irrelevant]). *)
Definition _paginated_api_call := _paginated_api_call_fuel max_pages.

Definition get_contributors (self : t) : M (option JSON) :=
  logger_info (format "Getting contributors for repo: {}" [name self]) ;;;
  let api_endpoint := format "https://api.github.com/repos/{}/{}/contributors"
                             [owner self; name self] in
  _paginated_api_call api_endpoint None.

Definition get_forks (self : t) : M (option JSON) :=
  logger_info (format "Getting forks for repo: {}" [name self]) ;;;
  let api_endpoint := format "https://api.github.com/repos/{}/{}/forks"
                             [owner self; name self] in
  _paginated_api_call api_endpoint None.

Definition get_releases (self : t) : M (option JSON) :=
  logger_info (format "Getting releases for repo: {}" [name self]) ;;;
  let api_endpoint := format "https://api.github.com/repos/{}/{}/releases"
                             [owner self; name self] in
  _paginated_api_call api_endpoint None.

(** Inherited from [Repo]: the body is [pass]. *)
Definition get_stars (self : t) : M (option JSON) := ret None.

Definition get_issues (self : t) : M (option JSON) :=
  logger_info (format "Getting issues for repo: {}" [name self]) ;;;
  let api_endpoint := format "https://api.github.com/repos/{}/{}/issues"
                             [owner self; name self] in
  _paginated_api_call api_endpoint (Some "state=all").

Definition get_commits (self : t) : M (option JSON) :=
  logger_info (format "Getting commits for repo: {}" [name self]) ;;;
  let api_endpoint := format "https://api.github.com/repos/{}/{}/commits"
                             [owner self; name self] in
  _paginated_api_call api_endpoint None.

(** [Repo.__init__], called by [GithubRepo.__init__]. *)
Definition __init__ (url : string) : M t :=
  owner <- get_owner url ;;
  name <- get_name url ;;
  let self := mk url owner name None None None None None None in
  contributors <- get_contributors self ;;
  forks <- get_forks self ;;
  releases <- get_releases self ;;
  stars <- get_stars self ;;
  issues <- get_issues self ;;
  commits <- get_commits self ;;
  ret (mk url owner name contributors forks releases stars issues commits).

End Fetch.

(** [len(collection)] of an attribute: [None] has no length. *)
Definition len_attr (collection : option JSON) : outcome nat :=
  match collection with
  | None => Raise TypeError
  | Some v => py_len v
  end.

Definition get_total_contributors (self : t) : outcome nat :=
  len_attr (contributors self).

Definition get_total_forks (self : t) : outcome nat :=
  len_attr (forks self).

Definition get_total_releases (self : t) : outcome nat :=
  len_attr (releases self).

Definition get_total_issues (self : t) : outcome nat :=
  len_attr (issues self).

Definition get_total_commits (self : t) : outcome nat :=
  len_attr (commits self).

End GithubRepo.

(** ** [datetime]: the part of the standard library the date helper uses *)

Module Datetime.

Local Open Scope Z_scope.

(** A [datetime.datetime]; [utcoffset] is [None] for a naive value and the
    offset from UTC in seconds for an aware one. *)
Record t : Type := mk {
  year : Z;
  month : Z;
  day : Z;
  hour : Z;
  minute : Z;
  second : Z;
  microsecond : Z;
  utcoffset : option Z
}.

Definition is_leap (y : Z) : bool :=
  (y mod 4 =? 0) && (negb (y mod 100 =? 0) || (y mod 400 =? 0)).

Definition days_in_month (y m : Z) : Z :=
  if m =? 2 then (if is_leap y then 29 else 28)
  else if (m =? 4) || (m =? 6) || (m =? 9) || (m =? 11) then 30
  else 31.

(** Days in year [y]. *)
Definition year_length (y : Z) : Z := if is_leap y then 366 else 365.

(** Days before January 1st of year [y]. *)
Definition days_before_year (y : Z) : Z :=
  let y := y - 1 in
  y * 365 + y / 4 - y / 100 + y / 400.

(** Days in year [y] before the first day of month [m]. *)
Definition days_before_month (y m : Z) : Z :=
  let feb := if is_leap y then 29 else 28 in
  if m <=? 1 then 0
  else if m =? 2 then 31
  else if m =? 3 then 31 + feb
  else if m =? 4 then 62 + feb
  else if m =? 5 then 92 + feb
  else if m =? 6 then 123 + feb
  else if m =? 7 then 153 + feb
  else if m =? 8 then 184 + feb
  else if m =? 9 then 215 + feb
  else if m =? 10 then 245 + feb
  else if m =? 11 then 276 + feb
  else 306 + feb.

(** [date.toordinal()]: January 1st of year 1 is day 1. *)
Definition toordinal (d : t) : Z :=
  days_before_year (year d) + days_before_month (year d) (month d) + day d.

(** The range checks of the constructor. *)
Definition valid (d : t) : bool :=
  (1 <=? year d) && (year d <=? 9999) &&
  (1 <=? month d) && (month d <=? 12) &&
  (1 <=? day d) && (day d <=? days_in_month (year d) (month d)) &&
  (0 <=? hour d) && (hour d <=? 23) &&
  (0 <=? minute d) && (minute d <=? 59) &&
  (0 <=? second d) && (second d <=? 59) &&
  (0 <=? microsecond d) && (microsecond d <=? 999999).

(** [datetime(year, month, day, hour, minute, second, microsecond)]. *)
Definition new (y m d H M S us : Z) : outcome t :=
  let r := mk y m d H M S us None in
  if valid r then Ret r else Raise ValueError.

(** Microseconds since the start of day 0 on the value's own clock. *)
Definition wall_clock (d : t) : Z :=
  (((toordinal d * 24 + hour d) * 60 + minute d) * 60 + second d) * 1000000
  + microsecond d.

(** Comparison of the field tuples
    [(year, month, day, hour, minute, second, microsecond)]. *)
Fixpoint tuple_lt (a b : list Z) : bool :=
  match a, b with
  | x :: a', y :: b' => (x <? y) || ((x =? y) && tuple_lt a' b')
  | [], _ :: _ => true
  | _, [] => false
  end.

Definition fields (d : t) : list Z :=
  [year d; month d; day d; hour d; minute d; second d; microsecond d].

(** [a < b]: two naive values compare by their fields, two aware values by
    their instants, and a naive value cannot be compared with an aware
    one. *)
Definition lt (a b : t) : outcome bool :=
  match utcoffset a, utcoffset b with
  | None, None => Ret (tuple_lt (fields a) (fields b))
  | Some oa, Some ob =>
      Ret (wall_clock a - oa * 1000000 <? wall_clock b - ob * 1000000)
  | _, _ => Raise TypeError
  end.

(** *** [strptime] with the format ['%Y-%m-%dT%H:%M:%SZ'] *)

(** The regular expression [strptime] compiles the format to: a literal
    character (matched without regard to case) or a directive, which is an
    ordered choice between sequences of character ranges. *)
Inductive item : Type :=
| Lit (c : ascii)
| Field (alts : list (list (ascii * ascii))).

Definition in_range (r : ascii * ascii) (c : ascii) : bool :=
  ((nat_of_ascii (fst r) <=? nat_of_ascii c) &&
   (nat_of_ascii c <=? nat_of_ascii (snd r)))%nat.

Definition lower (c : ascii) : ascii :=
  if in_range ("A"%char, "Z"%char) c
  then ascii_of_nat (nat_of_ascii c + 32)
  else c.

Definition d09 : ascii * ascii := ("0"%char, "9"%char).
Definition rng (lo hi : ascii) : ascii * ascii := (lo, hi).
Definition one (c : ascii) : ascii * ascii := (c, c).

(** [%Y] is [\d\d\d\d]. *)
Definition re_Y : item := Field [[d09; d09; d09; d09]].
(** [%m] is [1[0-2]|0[1-9]|[1-9]]. *)
Definition re_m : item :=
  Field [[one "1"; rng "0" "2"]; [one "0"; rng "1" "9"]; [rng "1" "9"]].
(** [%d] is [3[0-1]|[1-2]\d|0[1-9]|[1-9]| [1-9]]. *)
Definition re_d : item :=
  Field [[one "3"; rng "0" "1"]; [rng "1" "2"; d09]; [one "0"; rng "1" "9"];
         [rng "1" "9"]; [one " "; rng "1" "9"]].
(** [%H] is [2[0-3]|[0-1]\d|\d]. *)
Definition re_H : item :=
  Field [[one "2"; rng "0" "3"]; [rng "0" "1"; d09]; [d09]].
(** [%M] is [[0-5]\d|\d]. *)
Definition re_M : item := Field [[rng "0" "5"; d09]; [d09]].
(** [%S] is [6[0-1]|[0-5]\d|\d]. *)
Definition re_S : item :=
  Field [[one "6"; rng "0" "1"]; [rng "0" "5"; d09]; [d09]].

Definition commit_date_format : list item :=
  [re_Y; Lit "-"; re_m; Lit "-"; re_d; Lit "T";
   re_H; Lit ":"; re_M; Lit ":"; re_S; Lit "Z"].

(** One alternative against the start of [s]: the text it takes and what
    is left. *)
Fixpoint match_alt (alt : list (ascii * ascii)) (s : string)
  : option (string * string) :=
  match alt with
  | [] => Some (EmptyString, s)
  | r :: alt' =>
      match s with
      | String c s' =>
          if in_range r c
          then match match_alt alt' s' with
               | Some (cap, rest) => Some (String c cap, rest)
               | None => None
               end
          else None
      | EmptyString => None
      end
  end.

(** [re.match]: the first way, in the order of the alternatives, to match
    all the items at the start of [s]; the groups and the unmatched rest. *)
Fixpoint match_items (items : list item) (s : string)
  : option (list string * string) :=
  match items with
  | [] => Some ([], s)
  | Lit c :: items' =>
      match s with
      | String c' s' =>
          if Ascii.eqb (lower c) (lower c') then match_items items' s'
          else None
      | EmptyString => None
      end
  | Field alts :: items' =>
      (fix try (alts : list (list (ascii * ascii))) :=
         match alts with
         | [] => None
         | alt :: alts' =>
             match match_alt alt s with
             | Some (cap, s') =>
                 match match_items items' s' with
                 | Some (caps, rest) => Some (cap :: caps, rest)
                 | None => try alts'
                 end
             | None => try alts'
             end
         end) alts
  end.

(** [int(group)]: the digits of a group, a leading space skipped. *)
Fixpoint int_of (acc : Z) (s : string) : Z :=
  match s with
  | EmptyString => acc
  | String c s' =>
      if in_range d09 c
      then int_of (acc * 10 + Z.of_nat (nat_of_ascii c - 48)) s'
      else int_of acc s'
  end.

(** [datetime.datetime.strptime(s, '%Y-%m-%dT%H:%M:%SZ')]: a [ValueError]
    when the string does not match, when text is left over, or when the
    fields are not a date. *)
Definition strptime (s : string) : outcome t :=
  match match_items commit_date_format s with
  | Some ([gY; gm; gd; gH; gM; gS], EmptyString) =>
      new (int_of 0 gY) (int_of 0 gm) (int_of 0 gd)
          (int_of 0 gH) (int_of 0 gM) (int_of 0 gS) 0
  | _ => Raise ValueError
  end.

(** *** The fixed format [YYYY-MM-DDTHH:MM:SSZ] *)

Definition digit (n : Z) : ascii := ascii_of_nat (48 + Z.to_nat n).

Definition pad2 (n : Z) : string :=
  String (digit (n / 10)) (String (digit (n mod 10)) EmptyString).

Definition pad4 (n : Z) : string :=
  String (digit (n / 1000))
    (String (digit (n / 100 mod 10))
       (String (digit (n / 10 mod 10))
          (String (digit (n mod 10)) EmptyString))).

(** The date string of a commit made at the given date and time: four
    digits of year, two digits for every other field. *)
Definition commit_date_string (Y m d H M S : Z) : string :=
  pad4 Y ++ "-" ++ pad2 m ++ "-" ++ pad2 d ++ "T"
  ++ pad2 H ++ ":" ++ pad2 M ++ ":" ++ pad2 S ++ "Z".

(** *** Checks that the proofs evaluate *)

(** The first alternative that matches at the start of [x]. *)
Fixpoint first_alt (alts : list (list (ascii * ascii))) (x : string)
  : option (string * string) :=
  match alts with
  | [] => None
  | alt :: alts' =>
      match match_alt alt x with
      | Some r => Some r
      | None => first_alt alts' x
      end
  end.

(** No alternative is longer than [x], and the first one that matches [x]
    takes all of it. *)
Definition field_ok (alts : list (list (ascii * ascii))) (x : string) : bool :=
  forallb (fun alt => (List.length alt <=? String.length x)%nat) alts
  && match first_alt alts x with
     | Some (cap, EmptyString) => String.eqb cap x
     | _ => false
     end.

(** The directive [alts] reads the text [pad n] as the number [n]. *)
Definition reads (alts : list (list (ascii * ascii))) (pad : Z -> string)
    (n : Z) : bool :=
  field_ok alts (pad n) && (int_of 0 (pad n) =? n).

Definition alts_of (i : item) : list (list (ascii * ascii)) :=
  match i with
  | Lit _ => []
  | Field alts => alts
  end.

(** The integers [lo], [lo + 1], ..., [lo + k - 1]. *)
Definition zrange (lo k : Z) : list Z :=
  map (fun i => lo + Z.of_nat i) (seq 0 (Z.to_nat k)).

End Datetime.

(** [commit['commit']['author']['date']]. *)
Definition author_date (commit : JSON) : outcome JSON :=
  obind (py_getitem commit "commit") (fun c =>
  obind (py_getitem c "author") (fun a =>
  py_getitem a "date")).

(** [GithubRepo.is_commit_before_date(commit, date)]. *)
Definition is_commit_before_date (commit : JSON) (date : Datetime.t)
  : outcome bool :=
  obind (author_date commit) (fun d =>
  obind (match d with
         | JStr s => Datetime.strptime s
         | _ => Raise TypeError
         end) (fun commit_date =>
  Datetime.lt commit_date date)).

(** ** Scenarios: what the network answers to the requests of one call *)

(** A response whose body is the JSON array [p]. *)
Definition page (p : list JSON) : Response := Responds (Some (JArr p)).

Definition full (p : list JSON) : Prop :=
  List.length p = GithubRepo.max_elements_per_page.

(** [serves net hist urls resps]: after the requests [hist], the network
    answers the successive requests [urls] with [resps], one for one. *)
Fixpoint serves (net : Network) (hist urls : list string)
    (resps : list Response) : Prop :=
  match urls, resps with
  | [], [] => True
  | u :: us, r :: rs => net hist u = r /\ serves net (hist ++ [u])%list us rs
  | _, _ => False
  end.

(** The URLs of the first [n] requests of a paginated call: the initial
    URL, then the same URL with [&page=2], [&page=3], ... *)
Definition call_urls (url : string) (n : nat) : list string :=
  match n with
  | O => []
  | S k => url :: map (GithubRepo.page_url url) (seq 2 k)
  end.

(** What one pass through the loop body adds to the world. *)
Definition body_events (url : string) (headers : list (string * string))
    (page_number : nat) : World :=
  [Info (format "Making paginated API call to {}"
                [GithubRepo.page_url url (page_number + 1)]);
   Request "GET" (GithubRepo.page_url url (page_number + 1)) headers].

(** A network that answers its [k]-th request with the [k]-th response of
    a script, whatever the URL, and fails once the script is over. *)
Definition scripted (script : list Response) : Network :=
  fun hist _ => nth (List.length hist) script MaxRetryError.

Definition full_page : list JSON :=
  repeat JNull GithubRepo.max_elements_per_page.

Definition short_page : list JSON := repeat JNull 40.

(** A mocked endpoint that answers every request with a full page. *)
Definition always_full : Network :=
  fun _ _ => page full_page.

(** The commit record [{"commit": {"author": {"date": s}}}]. *)
Definition commit_dated (s : string) : JSON :=
  JObj [("commit", JObj [("author", JObj [("date", JStr s)])])].

(** ** Transcripts: what a paginated call writes to the world *)

(** The headers of every request. *)
Definition api_headers : list (string * string) :=
  [("Accept", "application/vnd.github.v3+json")].

(** The log line and the request that open a call. *)
Definition first_events (url : string) : World :=
  [Info (format "Making first API call to {}" [url]);
   Request "GET" url api_headers].

(** The events of [k] passes through the loop body, the first of them
    entered with page number [page_number]. *)
Definition pages_events (url : string) (page_number k : nat) : World :=
  flat_map (body_events url api_headers) (seq page_number k).

(** The log line that ends a call that was not cut short. *)
Definition count_message (n : nat) : event :=
  Info (format "Number of elements retrived: {}" [str_of_nat n]).

(** An event a paginated call may add: a log line, or a GET request with
    the API headers. *)
Definition api_event (e : event) : Prop :=
  match e with
  | Info _ => True
  | Request method _ headers => method = "GET" /\ headers = api_headers
  end.

(** The exception, if any, that a response raises in the call: a failure
    other than [MaxRetryError], a body that does not decode, or a decoded
    value that has no length. *)
Definition response_error (r : Response) : option exn :=
  match r with
  | MaxRetryError => None
  | OtherFailure e => Some e
  | Responds None => Some ValueError
  | Responds (Some v) =>
      match py_len v with
      | Raise e => Some e
      | _ => None
      end
  end.

(** The endpoint of one collection of a repository. *)
Definition repo_endpoint (self : GithubRepo.t) (collection : string) : string :=
  "https://api.github.com/repos/" ++ GithubRepo.owner self ++ "/"
  ++ GithubRepo.name self ++ "/" ++ collection.

(** [m] terminates and makes at most [n] requests, whatever the world. *)
Definition at_most {A} (n : nat) (m : M A) : Prop :=
  forall w, fst (m w) <> OutOfFuel /\
    exists urls, requested (snd (m w)) = (requested w ++ urls)%list /\
                 (List.length urls <= n)%nat.

(** The text before the last two segments of a URL: empty, or ending in
    the separator. *)
Definition url_prefix (pre : list string) : string :=
  match pre with
  | [] => ""
  | _ => join "/" pre ++ "/"
  end.

(** * Properties *)

(** ** Strings and indexing *)

Lemma split_nonempty (sep : ascii) (s : string) : split sep s <> [].
Proof.
  destruct s as [|c s]; simpl; [discriminate|].
  destruct (Ascii.eqb c sep); [discriminate|].
  destruct (split sep s); discriminate.
Qed.

(** Joining the segments gives the string back: [split] loses nothing. *)
Lemma join_split (sep : ascii) (s : string) : join sep (split sep s) = s.
Proof.
  induction s as [|c s IH]; simpl; [reflexivity|].
  destruct (Ascii.eqb_spec c sep) as [->|Hne].
  - pose proof (split_nonempty sep s) as Hn.
    destruct (split sep s) as [|h t]; [contradiction|].
    simpl. f_equal. exact IH.
  - pose proof (split_nonempty sep s) as Hn.
    destruct (split sep s) as [|h t]; [contradiction|].
    destruct t as [|h' t]; simpl in *; f_equal; exact IH.
Qed.

(** No segment contains the separator. *)
Lemma split_no_sep (sep : ascii) (s x : string) :
  In x (split sep s) -> contains sep x = false.
Proof.
  revert x. induction s as [|c s IH]; simpl; intros x Hx.
  - destruct Hx as [<-|[]]. reflexivity.
  - destruct (Ascii.eqb_spec c sep) as [->|Hne].
    + destruct Hx as [<-|Hx]; [reflexivity|]. apply IH, Hx.
    + destruct (split sep s) as [|h t].
      * destruct Hx as [<-|[]]. simpl.
        apply Ascii.eqb_neq in Hne. rewrite Hne. reflexivity.
      * destruct Hx as [<-|Hx].
        -- simpl. apply Ascii.eqb_neq in Hne. rewrite Hne. simpl.
           apply IH. left. reflexivity.
        -- apply IH. right. exact Hx.
Qed.

(** A string has two segments or more exactly when the separator occurs. *)
Lemma split_length_contains (sep : ascii) (s : string) :
  (2 <= List.length (split sep s))%nat <-> contains sep s = true.
Proof.
  induction s as [|c s IH]; simpl.
  - split; [lia|discriminate].
  - pose proof (split_nonempty sep s) as Hn.
    destruct (Ascii.eqb_spec c sep) as [->|Hne]; simpl.
    + destruct (split sep s); [contradiction|]. simpl. split; [reflexivity|lia].
    + destruct (split sep s) as [|h t]; [contradiction|]. exact IH.
Qed.

Lemma split_without_sep (sep : ascii) (s : string) :
  contains sep s = false -> split sep s = [s].
Proof.
  induction s as [|c s IH]; simpl; [reflexivity|].
  destruct (Ascii.eqb c sep); simpl; [discriminate|].
  intros H. rewrite (IH H). reflexivity.
Qed.

Lemma py_index_last {A} (pre : list A) (x : A) :
  py_index (pre ++ [x])%list (-1) = Ret x.
Proof.
  unfold py_index. rewrite length_app. simpl List.length.
  replace (-1 <? 0)%Z with true by reflexivity.
  destruct (_ || _)%bool eqn:E.
  - apply orb_true_iff in E. destruct E as [E|E];
      [apply Z.ltb_lt in E|apply Z.leb_le in E]; lia.
  - replace (Z.to_nat (-1 + Z.of_nat (List.length pre + 1)))
      with (List.length pre + 0)%nat by lia.
    rewrite nth_error_app2 by lia.
    replace (List.length pre + 0 - List.length pre)%nat with 0%nat by lia.
    reflexivity.
Qed.

Lemma py_index_second_last {A} (pre : list A) (x y : A) :
  py_index (pre ++ [x; y])%list (-2) = Ret x.
Proof.
  unfold py_index. rewrite length_app. simpl List.length.
  replace (-2 <? 0)%Z with true by reflexivity.
  destruct (_ || _)%bool eqn:E.
  - apply orb_true_iff in E. destruct E as [E|E];
      [apply Z.ltb_lt in E|apply Z.leb_le in E]; lia.
  - replace (Z.to_nat (-2 + Z.of_nat (List.length pre + 2)))
      with (List.length pre + 0)%nat by lia.
    rewrite nth_error_app2 by lia.
    replace (List.length pre + 0 - List.length pre)%nat with 0%nat by lia.
    reflexivity.
Qed.

(** A list of two elements or more ends in two elements. *)
Lemma two_last {A} (l : list A) :
  (2 <= List.length l)%nat -> exists pre x y, l = (pre ++ [x; y])%list.
Proof.
  induction l as [|a l IH]; simpl; [lia|].
  destruct l as [|b l]; simpl in *; [lia|].
  destruct l as [|c l].
  - intros _. exists [], a, b. reflexivity.
  - intros _. destruct IH as (pre & x & y & E); [simpl; lia|].
    exists (a :: pre), x, y. rewrite E. reflexivity.
Qed.

Lemma requested_app (w1 w2 : World) :
  requested (w1 ++ w2)%list = (requested w1 ++ requested w2)%list.
Proof.
  induction w1 as [|[m|m u h] w1 IH]; simpl; [reflexivity|exact IH|].
  f_equal. exact IH.
Qed.

Module GithubRepoFacts.
Import GithubRepo.

(** ** URL resolution *)

Lemma parse_github_url_run url position log_text w :
  fst (_parse_github_url url position log_text w)
  = py_index (split "/" url) position.
Proof.
  unfold _parse_github_url, bind, lift, logger_info, ret.
  destruct (py_index (split "/" url) position); reflexivity.
Qed.

(** C6: a URL with two segments or more resolves to its second-to-last
    segment as owner and its last segment as name; for
    [https://github.com/foo/bar] these are [foo] and [bar]. *)
Theorem owner_and_name_are_last_two_segments :
  (forall url w,
      (2 <= List.length (split "/" url))%nat ->
      exists pre o n,
        split "/" url = (pre ++ [o; n])%list /\
        fst (get_owner url w) = Ret o /\
        fst (get_name url w) = Ret n) /\
  (forall w, fst (get_owner "https://github.com/foo/bar" w) = Ret "foo") /\
  (forall w, fst (get_name "https://github.com/foo/bar" w) = Ret "bar").
Proof.
  split; [|split].
  - intros url w H.
    destruct (two_last _ H) as (pre & o & n & E).
    exists pre, o, n. split; [exact E|].
    unfold get_owner, get_name. rewrite !parse_github_url_run, E. split.
    + apply py_index_second_last.
    + change (pre ++ [o; n])%list with (pre ++ [o] ++ [n])%list.
      rewrite app_assoc. apply py_index_last.
  - intros w. unfold get_owner. rewrite parse_github_url_run. reflexivity.
  - intros w. unfold get_name. rewrite parse_github_url_run. reflexivity.
Qed.

Lemma owner_and_name_are_last_two_segments_witness :
  exists pre o n,
    split "/" "a/b/c" = (pre ++ [o; n])%list /\
    fst (get_owner "a/b/c" []) = Ret o /\
    fst (get_name "a/b/c" []) = Ret n.
Proof.
  apply (proj1 owner_and_name_are_last_two_segments "a/b/c" []).
  simpl. lia.
Defined.

(** C7 as stated fails: a URL without any ['/'] has one segment, and
    [get_owner] raises [IndexError] on it. *)
Lemma get_owner_raises_without_slash :
  (List.length (split "/" "bar") < 2)%nat /\
  fst (get_owner "bar" []) = Raise IndexError.
Proof. split; [simpl; lia|reflexivity]. Qed.

(** C7 amended: [get_name] never raises: on every URL it returns the last
    segment of the URL split on ['/']; [get_owner] returns the
    second-to-last segment, without raising, on every URL that contains a
    ['/']; on a URL without ['/'] (fewer than two segments) [get_name]
    returns the whole URL and [get_owner] raises [IndexError]. *)
Theorem malformed_url_behaviour (url : string) (w : World) :
  fst (get_name url w) = Ret (last (split "/" url) "") /\
  (contains "/" url = true ->
   exists pre o n,
     split "/" url = (pre ++ [o; n])%list /\
     fst (get_owner url w) = Ret o) /\
  ((List.length (split "/" url) < 2)%nat ->
   fst (get_name url w) = Ret url /\
   fst (get_owner url w) = Raise IndexError).
Proof.
  unfold get_owner, get_name. rewrite !parse_github_url_run.
  split; [|split].
  - destruct (split "/" url) as [|x l] eqn:E;
      [exfalso; eapply split_nonempty; exact E|].
    destruct (@exists_last _ (x :: l)) as (pre & n & E'); [discriminate|].
    rewrite E', last_last. apply py_index_last.
  - intros H. apply split_length_contains in H.
    destruct (two_last _ H) as (pre & o & n & E).
    exists pre, o, n. split; [exact E|].
    rewrite E. apply py_index_second_last.
  - intros H.
    assert (Hc : contains "/" url = false).
    { destruct (contains "/" url) eqn:E; [|reflexivity].
      apply split_length_contains in E. lia. }
    rewrite (split_without_sep _ _ Hc). split; reflexivity.
Qed.

Lemma malformed_url_behaviour_witness :
  fst (get_name "bar" []) = Ret "bar" /\
  fst (get_owner "bar" []) = Raise IndexError.
Proof.
  apply (proj2 (proj2 (malformed_url_behaviour "bar" []))).
  simpl. lia.
Defined.

End GithubRepoFacts.

Lemma requested_info (w : World) (msg : string) :
  requested (w ++ [Info msg])%list = requested w.
Proof. rewrite requested_app. simpl. apply app_nil_r. Qed.

Lemma requested_request (w : World) (m u : string) h :
  requested (w ++ [Request m u h])%list = (requested w ++ [u])%list.
Proof. rewrite requested_app. reflexivity. Qed.

Module FetchFacts.
Import GithubRepo.

Section WithNetwork.

Variable net : Network.
Variable url : string.
Variable headers : list (string * string).

Ltac run := unfold loop_body, after_loop, try_request, bind, lift, ret,
  logger_info, json_loads; simpl.

(** *** One pass through the loop body *)

Lemma loop_body_world data pn w :
  snd (loop_body net url headers data pn w)
  = (w ++ body_events url headers pn)%list.
Proof.
  unfold body_events. run. rewrite requested_info.
  rewrite <- app_assoc. simpl.
  destruct (net _ _) as [|e|[v|]]; simpl; try reflexivity.
  destruct (py_len v); simpl; try reflexivity.
  destruct (py_extend data v); reflexivity.
Qed.

Lemma loop_body_fails data pn w :
  net (requested w) (page_url url (pn + 1)) = MaxRetryError ->
  loop_body net url headers data pn w
  = (Ret (Return data), (w ++ body_events url headers pn)%list).
Proof.
  intros H. unfold body_events. run. rewrite requested_info, H.
  rewrite <- app_assoc. reflexivity.
Qed.

Lemma loop_body_page l p pn w :
  net (requested w) (page_url url (pn + 1)) = page p ->
  loop_body net url headers (JArr l) pn w
  = (Ret (Next ((List.length p =? max_elements_per_page)
                && (pn + 1 <? max_pages))%nat
               (JArr (l ++ p)%list) (pn + 1)),
     (w ++ body_events url headers pn)%list).
Proof.
  intros H. unfold body_events. run. rewrite requested_info, H.
  rewrite <- app_assoc. reflexivity.
Qed.

Lemma loop_body_next data pn w p d n :
  fst (loop_body net url headers data pn w) = Ret (Next p d n) ->
  n = (pn + 1)%nat /\ (p = true -> (n < max_pages)%nat).
Proof.
  run. rewrite requested_info.
  destruct (net _ _) as [|e|[v|]]; simpl; try discriminate.
  destruct (py_len v) as [k| |]; simpl; try discriminate.
  destruct (py_extend data v); simpl; try discriminate.
  intros H. injection H as <- _ <-. split; [reflexivity|].
  intros E. apply andb_true_iff in E. destruct E as [_ E].
  apply Nat.ltb_lt in E. exact E.
Qed.

Lemma loop_body_terminates data pn w :
  fst (loop_body net url headers data pn w) <> OutOfFuel.
Proof.
  run. rewrite requested_info.
  destruct (net _ _) as [|e|[v|]]; simpl; try discriminate.
  destruct v; simpl; try discriminate;
    destruct data; simpl; try discriminate.
Qed.

(** *** The loop *)

Lemma after_loop_requested data w :
  requested (snd (after_loop data w)) = requested w.
Proof.
  run. destruct (py_len data); simpl; try reflexivity.
  apply requested_info.
Qed.

Lemma after_loop_terminates data w :
  fst (after_loop data w) <> OutOfFuel.
Proof. run. destruct data; simpl; discriminate. Qed.

Lemma after_loop_list l w :
  after_loop (JArr l) w
  = (Ret (Some (JArr l)),
     (w ++ [Info (format "Number of elements retrived: {}"
                         [str_of_nat (List.length l)])])%list).
Proof. reflexivity. Qed.

(** Fuel for the pages that are left is enough, and more changes nothing. *)
Lemma loop_fuel_irrelevant f1 : forall f2 p data pn w,
  (p = true -> (pn < max_pages)%nat) ->
  (max_pages <= f1 + pn)%nat -> (max_pages <= f2 + pn)%nat ->
  paginate_loop net f1 url headers p data pn w
  = paginate_loop net f2 url headers p data pn w.
Proof.
  induction f1 as [|f1 IH]; intros f2 p data pn w Hp H1 H2;
    (destruct p; [specialize (Hp eq_refl)|destruct f2; reflexivity]).
  - lia.
  - destruct f2 as [|f2]; [lia|]. simpl. unfold bind.
    destruct (loop_body net url headers data pn w) as [[c|e|] w'] eqn:E;
      try reflexivity.
    destruct c as [d|p' d n]; [reflexivity|].
    destruct (loop_body_next data pn w p' d n) as [-> Hn];
      [rewrite E; reflexivity|].
    apply IH; [exact Hn|lia|lia].
Qed.

Lemma loop_terminates f : forall p data pn w,
  (p = true -> (pn < max_pages)%nat) ->
  (max_pages <= f + pn)%nat ->
  fst (paginate_loop net f url headers p data pn w) <> OutOfFuel.
Proof.
  induction f as [|f IH]; intros p data pn w Hp Hf;
    (destruct p; [specialize (Hp eq_refl)|apply after_loop_terminates]).
  - lia.
  - simpl. unfold bind.
    pose proof (loop_body_terminates data pn w) as Hb.
    destruct (loop_body net url headers data pn w) as [[c|e|] w'] eqn:E;
      simpl in *; try discriminate; [|contradiction].
    destruct c as [d|p' d n]; [discriminate|].
    destruct (loop_body_next data pn w p' d n) as [-> Hn];
      [rewrite E; reflexivity|].
    apply IH; [exact Hn|lia].
Qed.

(** The loop requests the pages after [pn] in order, and none beyond
    [max_pages]. *)
Lemma loop_requests f : forall p data pn w,
  (pn <= max_pages)%nat ->
  (p = true -> (pn < max_pages)%nat) ->
  exists k, (pn + k <= max_pages)%nat /\
    requested (snd (paginate_loop net f url headers p data pn w))
    = (requested w ++ map (page_url url) (seq (pn + 1) k))%list.
Proof.
  induction f as [|f IH]; intros p data pn w Hle Hp.
  - exists 0%nat. split; [lia|]. simpl. rewrite app_nil_r.
    destruct p; [reflexivity|apply after_loop_requested].
  - destruct p.
    2:{ exists 0%nat. split; [lia|]. simpl. rewrite app_nil_r.
        apply after_loop_requested. }
    specialize (Hp eq_refl). simpl. unfold bind.
    pose proof (loop_body_world data pn w) as Hw.
    destruct (loop_body net url headers data pn w) as [[c|e|] w'] eqn:E;
      simpl in Hw; subst w'.
    + destruct c as [d|p' d n].
      * exists 1%nat. split; [lia|]. simpl.
        unfold body_events. rewrite requested_app. reflexivity.
      * destruct (loop_body_next data pn w p' d n) as [-> Hn];
          [rewrite E; reflexivity|].
        destruct (IH p' d (pn + 1)%nat (w ++ body_events url headers pn)%list)
          as (k & Hk & Hr); [lia|exact Hn|].
        exists (S k). split; [lia|]. rewrite Hr.
        unfold body_events. rewrite requested_app. simpl.
        rewrite <- app_assoc. simpl.
        replace (S (pn + 1)) with (pn + 1 + 1)%nat by lia. reflexivity.
    + exists 1%nat. split; [lia|]. simpl.
      unfold body_events. rewrite requested_app. reflexivity.
    + exists 1%nat. split; [lia|]. simpl.
      unfold body_events. rewrite requested_app. reflexivity.
Qed.

(** *** The loop against a scenario *)

Lemma full_eqb p : full p -> (List.length p =? max_elements_per_page)%nat = true.
Proof. unfold full. intros ->. apply Nat.eqb_refl. Qed.

Lemma requested_body_events w pn :
  requested (w ++ body_events url headers pn)%list
  = (requested w ++ [page_url url (pn + 1)])%list.
Proof. unfold body_events. rewrite requested_app. reflexivity. Qed.

(** Full pages, then a page that ends the loop: a page that is not full,
    or the page number [max_pages]. *)
Lemma loop_pages_done ps : forall lastp l pn w f,
  Forall full ps ->
  (pn + List.length ps + 1 <= max_pages)%nat ->
  List.length lastp <> max_elements_per_page
    \/ (pn + List.length ps + 1)%nat = max_pages ->
  (List.length ps < f)%nat ->
  serves net (requested w)
         (map (page_url url) (seq (pn + 1) (List.length ps + 1)))
         (map page (ps ++ [lastp])%list) ->
  fst (paginate_loop net f url headers true (JArr l) pn w)
    = Ret (Some (JArr (l ++ List.concat (ps ++ [lastp]))%list)) /\
  requested (snd (paginate_loop net f url headers true (JArr l) pn w))
    = (requested w
       ++ map (page_url url) (seq (pn + 1) (List.length ps + 1)))%list.
Proof.
  induction ps as [|p ps IH]; intros lastp l pn w f Hfull Hle Hend Hf Hs;
    (destruct f as [|f]; [simpl in Hf; lia|]); simpl in Hs;
    destruct Hs as [H1 Hs]; simpl paginate_loop; unfold bind;
    rewrite (loop_body_page l _ pn w H1).
  - assert (E : ((List.length lastp =? max_elements_per_page)
                 && (pn + 1 <? max_pages))%nat = false).
    { apply andb_false_iff. destruct Hend as [Hn|He].
      - left. apply Nat.eqb_neq. exact Hn.
      - right. apply Nat.ltb_ge. simpl in He. lia. }
    rewrite E.
    replace (paginate_loop net f url headers false (JArr (l ++ lastp)%list)
               (pn + 1))
      with (after_loop (JArr (l ++ lastp)%list)) by (destruct f; reflexivity).
    rewrite after_loop_list. simpl. rewrite app_nil_r. split; [reflexivity|].
    rewrite requested_info. apply requested_body_events.
  - inversion Hfull as [|? ? Hp Hps]; subst. simpl in Hle, Hf, Hend.
    assert (E : ((List.length p =? max_elements_per_page)
                 && (pn + 1 <? max_pages))%nat = true).
    { apply andb_true_iff. split; [apply full_eqb, Hp|].
      apply Nat.ltb_lt. lia. }
    rewrite E.
    destruct (IH lastp (l ++ p)%list (pn + 1)%nat
                (w ++ body_events url headers pn)%list f) as [Hr Hq];
      [exact Hps|lia|destruct Hend; [left; assumption|right; lia]|lia| |].
    + rewrite requested_body_events.
      replace (pn + 1 + 1)%nat with (S (pn + 1)) by lia. exact Hs.
    + rewrite Hr, Hq. simpl. rewrite <- !app_assoc. split; [reflexivity|].
      rewrite requested_body_events, <- app_assoc. simpl.
      replace (pn + 1 + 1)%nat with (S (pn + 1)) by lia. reflexivity.
Qed.

(** Full pages, then a request that fails with [MaxRetryError]. *)
Lemma loop_pages_fail ps : forall l pn w f,
  Forall full ps ->
  (pn + List.length ps < max_pages)%nat ->
  (List.length ps < f)%nat ->
  serves net (requested w)
         (map (page_url url) (seq (pn + 1) (List.length ps + 1)))
         (map page ps ++ [MaxRetryError])%list ->
  fst (paginate_loop net f url headers true (JArr l) pn w)
    = Ret (Some (JArr (l ++ List.concat ps)%list)) /\
  requested (snd (paginate_loop net f url headers true (JArr l) pn w))
    = (requested w
       ++ map (page_url url) (seq (pn + 1) (List.length ps + 1)))%list.
Proof.
  induction ps as [|p ps IH]; intros l pn w f Hfull Hle Hf Hs;
    (destruct f as [|f]; [simpl in Hf; lia|]); simpl in Hs;
    destruct Hs as [H1 Hs]; simpl paginate_loop; unfold bind.
  - rewrite (loop_body_fails (JArr l) pn w H1). simpl.
    rewrite app_nil_r. split; [reflexivity|]. apply requested_body_events.
  - rewrite (loop_body_page l _ pn w H1).
    inversion Hfull as [|? ? Hp Hps]; subst. simpl in Hle, Hf.
    assert (E : ((List.length p =? max_elements_per_page)
                 && (pn + 1 <? max_pages))%nat = true).
    { apply andb_true_iff. split; [apply full_eqb, Hp|].
      apply Nat.ltb_lt. lia. }
    rewrite E.
    destruct (IH (l ++ p)%list (pn + 1)%nat
                (w ++ body_events url headers pn)%list f) as [Hr Hq];
      [exact Hps|lia|lia| |].
    + rewrite requested_body_events.
      replace (pn + 1 + 1)%nat with (S (pn + 1)) by lia. exact Hs.
    + rewrite Hr, Hq. simpl. rewrite <- !app_assoc. split; [reflexivity|].
      rewrite requested_body_events, <- app_assoc. simpl.
      replace (pn + 1 + 1)%nat with (S (pn + 1)) by lia. reflexivity.
Qed.

End WithNetwork.

(** *** The whole call *)

Section Call.

Variable net : Network.
Variable api_endpoint : string.
Variable extra_params : option string.

Let url := get_api_url api_endpoint extra_params.
Let headers := [("Accept", "application/vnd.github.v3+json")].

(** What the call adds to the world up to and including its first
    request. *)
Let first_events : World :=
  [Info (format "Making first API call to {}" [url]); Request "GET" url headers].

Ltac run := unfold _paginated_api_call, _paginated_api_call_fuel, try_request,
  bind, lift, ret, logger_info, json_loads; simpl.

Lemma requested_first_events w :
  requested (w ++ first_events)%list = (requested w ++ [url])%list.
Proof. unfold first_events. rewrite requested_app. reflexivity. Qed.

Lemma call_first_fails f w :
  net (requested w) url = MaxRetryError ->
  _paginated_api_call_fuel net f api_endpoint extra_params w
  = (Ret None, (w ++ first_events)%list).
Proof.
  intros H. run. rewrite requested_info. fold url. rewrite H.
  rewrite <- app_assoc. reflexivity.
Qed.

Lemma call_first_page f w p :
  net (requested w) url = page p ->
  _paginated_api_call_fuel net f api_endpoint extra_params w
  = paginate_loop net f url headers
      (List.length p =? max_elements_per_page)%nat (JArr p) 1
      (w ++ first_events)%list.
Proof.
  intros H. run. rewrite requested_info. fold url. rewrite H.
  rewrite <- app_assoc. reflexivity.
Qed.

(** Either the call ends at its first request, or it enters the loop at
    page 1. *)
Lemma call_cases f w :
  (exists o, o <> OutOfFuel /\
     _paginated_api_call_fuel net f api_endpoint extra_params w
     = (o, (w ++ first_events)%list)) \/
  (exists p data,
     _paginated_api_call_fuel net f api_endpoint extra_params w
     = paginate_loop net f url headers p data 1 (w ++ first_events)%list).
Proof.
  run. rewrite requested_info. fold url. rewrite <- app_assoc. simpl.
  destruct (net (requested w) url) as [|e|[v|]]; simpl.
  - left. eexists. split; [|reflexivity]. discriminate.
  - left. eexists. split; [|reflexivity]. discriminate.
  - destruct (py_len v) as [n|e|] eqn:E; simpl.
    + right. eexists. eexists. reflexivity.
    + left. eexists. split; [|reflexivity]. discriminate.
    + destruct v; discriminate.
  - left. eexists. split; [|reflexivity]. discriminate.
Qed.

Lemma call_terminates w :
  fst (_paginated_api_call net api_endpoint extra_params w) <> OutOfFuel.
Proof.
  unfold _paginated_api_call.
  destruct (call_cases max_pages w) as [(o & Ho & ->)|(p & data & ->)].
  - exact Ho.
  - apply loop_terminates; unfold max_pages; lia.
Qed.

Lemma call_fuel_irrelevant f w :
  (max_pages <= f)%nat ->
  _paginated_api_call_fuel net f api_endpoint extra_params w
  = _paginated_api_call net api_endpoint extra_params w.
Proof.
  intros Hf. unfold _paginated_api_call.
  assert (G : forall f1 f2, (max_pages <= f1)%nat -> (max_pages <= f2)%nat ->
            _paginated_api_call_fuel net f1 api_endpoint extra_params w
            = _paginated_api_call_fuel net f2 api_endpoint extra_params w).
  { intros f1 f2 H1 H2. run. rewrite requested_info.
    destruct (net _ _) as [|e|[v|]]; simpl; try reflexivity.
    destruct (py_len v) as [n|e|]; simpl; try reflexivity.
    apply loop_fuel_irrelevant; unfold max_pages in *; lia. }
  apply G; [exact Hf|apply Nat.le_refl].
Qed.

Lemma call_requests w :
  exists k, (1 <= k <= max_pages)%nat /\
    requested (snd (_paginated_api_call net api_endpoint extra_params w))
    = (requested w ++ call_urls url k)%list.
Proof.
  unfold _paginated_api_call.
  destruct (call_cases max_pages w) as [(o & Ho & ->)|(p & data & ->)].
  - exists 1%nat. split; [unfold max_pages; lia|].
    simpl. apply requested_first_events.
  - destruct (loop_requests net url headers max_pages p data 1
                (w ++ first_events)%list) as (k & Hk & Hr);
      [unfold max_pages; lia|unfold max_pages; lia|].
    exists (S k). split; [lia|]. rewrite Hr, requested_first_events.
    rewrite <- app_assoc. reflexivity.
Qed.

(** The pages of a successful call: full pages, then a page that ends the
    loop. *)
Lemma call_pages_done ps lastp w :
  Forall full ps ->
  (List.length ps + 1 <= max_pages)%nat ->
  List.length lastp <> max_elements_per_page
    \/ (List.length ps + 1)%nat = max_pages ->
  serves net (requested w) (call_urls url (List.length ps + 1))
         (map page (ps ++ [lastp])%list) ->
  fst (_paginated_api_call net api_endpoint extra_params w)
    = Ret (Some (JArr (List.concat (ps ++ [lastp])%list))) /\
  requested (snd (_paginated_api_call net api_endpoint extra_params w))
    = (requested w ++ call_urls url (List.length ps + 1))%list.
Proof.
  intros Hfull Hle Hend Hs. unfold _paginated_api_call.
  replace (List.length ps + 1)%nat with (S (List.length ps)) in Hs |- * by lia.
  destruct ps as [|p ps]; simpl in Hs; destruct Hs as [H1 Hs].
  - rewrite (call_first_page _ w _ H1).
    destruct Hend as [Hn|He]; [|discriminate He].
    apply Nat.eqb_neq in Hn. rewrite Hn.
    change (paginate_loop net max_pages url headers false (JArr lastp) 1)
      with (after_loop (JArr lastp)).
    rewrite after_loop_list. simpl. rewrite app_nil_r.
    split; [reflexivity|].
    rewrite requested_info. apply requested_first_events.
  - rewrite (call_first_page _ w _ H1).
    inversion Hfull as [|? ? Hp Hps]; subst. rewrite (full_eqb _ Hp).
    simpl in Hle, Hend.
    destruct (loop_pages_done net url headers ps lastp p 1
                (w ++ first_events)%list max_pages) as [Hr Hq];
      [exact Hps|lia|destruct Hend; [left; assumption|right; lia]
      |unfold max_pages in *; lia| |].
    + rewrite requested_first_events.
      replace (List.length ps + 1)%nat with (S (List.length ps)) by lia.
      exact Hs.
    + rewrite Hr, Hq. split; [reflexivity|].
      rewrite requested_first_events, <- app_assoc.
      replace (List.length ps + 1)%nat with (S (List.length ps)) by lia.
      reflexivity.
Qed.

(** The pages of a call cut short: full pages, at least one, then a
    request that fails. *)
Lemma call_pages_fail ps w :
  ps <> [] ->
  Forall full ps ->
  (List.length ps < max_pages)%nat ->
  serves net (requested w) (call_urls url (List.length ps + 1))
         (map page ps ++ [MaxRetryError])%list ->
  fst (_paginated_api_call net api_endpoint extra_params w)
    = Ret (Some (JArr (List.concat ps))) /\
  requested (snd (_paginated_api_call net api_endpoint extra_params w))
    = (requested w ++ call_urls url (List.length ps + 1))%list.
Proof.
  intros Hne Hfull Hle Hs. unfold _paginated_api_call.
  replace (List.length ps + 1)%nat with (S (List.length ps)) in Hs |- * by lia.
  destruct ps as [|p ps]; [contradiction|].
  simpl in Hs; destruct Hs as [H1 Hs].
  rewrite (call_first_page _ w _ H1).
  inversion Hfull as [|? ? Hp Hps]; subst. rewrite (full_eqb _ Hp).
  simpl in Hle.
  destruct (loop_pages_fail net url headers ps p 1
              (w ++ first_events)%list max_pages) as [Hr Hq];
    [exact Hps|lia|unfold max_pages in *; lia| |].
  - rewrite requested_first_events.
    replace (List.length ps + 1)%nat with (S (List.length ps)) by lia.
    exact Hs.
  - rewrite Hr, Hq. split; [reflexivity|].
    rewrite requested_first_events, <- app_assoc.
    replace (List.length ps + 1)%nat with (S (List.length ps)) by lia.
    reflexivity.
Qed.

End Call.

Lemma length_concat_full (ps : list (list JSON)) :
  Forall full ps ->
  List.length (List.concat ps)
  = (List.length ps * max_elements_per_page)%nat.
Proof.
  induction 1 as [|p ps Hp _ IH]; [reflexivity|].
  simpl List.concat. rewrite length_app, IH, Hp. reflexivity.
Qed.

Lemma serves_always_full hist urls :
  serves always_full hist urls (map (fun _ => page full_page) urls).
Proof.
  revert hist. induction urls as [|u us IH]; intros hist; simpl;
    [exact I|split; [reflexivity|apply IH]].
Qed.

(** ** The paginated fetch *)

(** C1: when the first request raises [MaxRetryError] the call returns
    [None], whatever the endpoint and the extra parameters, and makes no
    other request. *)
Theorem first_request_failure_returns_None
    (net : Network) (api_endpoint : string) (extra_params : option string)
    (w : World) :
  net (requested w) (get_api_url api_endpoint extra_params) = MaxRetryError ->
  fst (_paginated_api_call net api_endpoint extra_params w) = Ret None /\
  requested (snd (_paginated_api_call net api_endpoint extra_params w))
  = (requested w ++ [get_api_url api_endpoint extra_params])%list.
Proof.
  intros H. unfold _paginated_api_call.
  rewrite (call_first_fails _ _ _ _ _ H). simpl. split; [reflexivity|].
  apply requested_first_events.
Qed.

Lemma first_request_failure_returns_None_witness :
  fst (_paginated_api_call (scripted [])
         "https://api.github.com/repos/foo/bar/forks" None []) = Ret None /\
  requested (snd (_paginated_api_call (scripted [])
         "https://api.github.com/repos/foo/bar/forks" None []))
  = ([] ++ [get_api_url "https://api.github.com/repos/foo/bar/forks" None])%list.
Proof.
  apply (first_request_failure_returns_None (scripted [])
           "https://api.github.com/repos/foo/bar/forks" None []).
  reflexivity.
Defined.

(** C2: when the first page arrives and a later request raises
    [MaxRetryError], the call returns the pages fetched before it, in
    order. The request for page [n] is only made after [n - 1] full pages,
    with [n <= max_pages]; [ps] are those pages. When the third request
    fails the result is the 200 records of pages 1 and 2. *)
Theorem later_failure_returns_pages_so_far :
  (forall net api_endpoint extra_params w ps,
      ps <> [] ->
      Forall full ps ->
      (List.length ps < max_pages)%nat ->
      serves net (requested w)
             (call_urls (get_api_url api_endpoint extra_params)
                        (List.length ps + 1))
             (map page ps ++ [MaxRetryError])%list ->
      fst (_paginated_api_call net api_endpoint extra_params w)
        = Ret (Some (JArr (List.concat ps))) /\
      requested (snd (_paginated_api_call net api_endpoint extra_params w))
        = (requested w
           ++ call_urls (get_api_url api_endpoint extra_params)
                        (List.length ps + 1))%list) /\
  (forall net api_endpoint extra_params w p1 p2,
      full p1 -> full p2 ->
      serves net (requested w)
             (call_urls (get_api_url api_endpoint extra_params) 3)
             [page p1; page p2; MaxRetryError] ->
      fst (_paginated_api_call net api_endpoint extra_params w)
        = Ret (Some (JArr (p1 ++ p2)%list)) /\
      List.length (p1 ++ p2)%list = 200%nat).
Proof.
  split.
  - intros. apply call_pages_fail; assumption.
  - intros net api_endpoint extra_params w p1 p2 H1 H2 Hs.
    destruct (call_pages_fail net api_endpoint extra_params [p1; p2] w)
      as [Hr _]; [discriminate|repeat constructor; assumption
                 |unfold max_pages; simpl; lia|exact Hs|].
    rewrite Hr. simpl. rewrite app_nil_r. split; [reflexivity|].
    rewrite length_app, H1, H2. reflexivity.
Qed.

Lemma later_failure_returns_pages_so_far_witness :
  fst (_paginated_api_call
         (scripted [page full_page; page full_page; MaxRetryError;
                    page full_page; page full_page])
         "https://api.github.com/repos/foo/bar/forks" None [])
    = Ret (Some (JArr (full_page ++ full_page)%list)) /\
  List.length (full_page ++ full_page)%list = 200%nat.
Proof.
  apply (proj2 later_failure_returns_pages_so_far
           (scripted [page full_page; page full_page; MaxRetryError;
                      page full_page; page full_page])
           "https://api.github.com/repos/foo/bar/forks" None []
           full_page full_page).
  - reflexivity.
  - reflexivity.
  - simpl. repeat split; reflexivity.
Defined.

(** C3: whatever the network answers, the call terminates (the fuel of
    the model is never used up, and more fuel changes nothing) and makes
    between one and [max_pages] = 10 requests, the first [k] URLs of the
    call. When the first ten answers are full pages the call makes exactly
    ten requests and returns their 1000 records; so it does against an
    endpoint that answers a full page to every request. *)
Theorem at_most_max_pages_requests :
  (forall net api_endpoint extra_params w,
      fst (_paginated_api_call net api_endpoint extra_params w) <> OutOfFuel /\
      (forall fuel, (max_pages <= fuel)%nat ->
         _paginated_api_call_fuel net fuel api_endpoint extra_params w
         = _paginated_api_call net api_endpoint extra_params w) /\
      exists k, (1 <= k <= 10)%nat /\
        requested (snd (_paginated_api_call net api_endpoint extra_params w))
        = (requested w
           ++ call_urls (get_api_url api_endpoint extra_params) k)%list) /\
  (forall net api_endpoint extra_params w ps,
      List.length ps = 10%nat ->
      Forall full ps ->
      serves net (requested w)
             (call_urls (get_api_url api_endpoint extra_params) 10)
             (map page ps) ->
      fst (_paginated_api_call net api_endpoint extra_params w)
        = Ret (Some (JArr (List.concat ps))) /\
      List.length (List.concat ps) = 1000%nat /\
      requested (snd (_paginated_api_call net api_endpoint extra_params w))
        = (requested w
           ++ call_urls (get_api_url api_endpoint extra_params) 10)%list) /\
  (forall api_endpoint extra_params w,
      fst (_paginated_api_call always_full api_endpoint extra_params w)
        = Ret (Some (JArr (repeat JNull 1000))) /\
      List.length
        (requested
           (snd (_paginated_api_call always_full api_endpoint extra_params w)))
        = (List.length (requested w) + 10)%nat).
Proof.
  assert (G : forall net api_endpoint extra_params w ps,
      List.length ps = 10%nat ->
      Forall full ps ->
      serves net (requested w)
             (call_urls (get_api_url api_endpoint extra_params) 10)
             (map page ps) ->
      fst (_paginated_api_call net api_endpoint extra_params w)
        = Ret (Some (JArr (List.concat ps))) /\
      List.length (List.concat ps) = 1000%nat /\
      requested (snd (_paginated_api_call net api_endpoint extra_params w))
        = (requested w
           ++ call_urls (get_api_url api_endpoint extra_params) 10)%list).
  { intros net api_endpoint extra_params w ps Hlen Hfull Hs.
    destruct (@exists_last _ ps) as (qs & lastp & ->);
      [intros ->; discriminate|].
    rewrite length_app in Hlen. simpl in Hlen.
    apply Forall_app in Hfull as Hf2. destruct Hf2 as [Hq _].
    destruct (call_pages_done net api_endpoint extra_params qs lastp w)
      as [Hr Hq'];
      [exact Hq|unfold max_pages; lia|right; unfold max_pages; lia
      |rewrite Hlen; exact Hs|].
    rewrite Hr, Hq', Hlen. split; [reflexivity|]. split; [|reflexivity].
    rewrite (length_concat_full _ Hfull), length_app. simpl.
    rewrite Hlen. reflexivity. }
  split; [|split].
  - intros net api_endpoint extra_params w. split; [|split].
    + apply call_terminates.
    + intros fuel Hf. apply call_fuel_irrelevant, Hf.
    + apply call_requests.
  - exact G.
  - intros api_endpoint extra_params w.
    destruct (G always_full api_endpoint extra_params w (repeat full_page 10))
      as (Hr & _ & Hq).
    + reflexivity.
    + apply Forall_forall. intros x Hx. apply repeat_spec in Hx. subst x.
      reflexivity.
    + apply (serves_always_full (requested w)
               (call_urls (get_api_url api_endpoint extra_params) 10)).
    + rewrite Hr, Hq. split; [reflexivity|].
      rewrite length_app. reflexivity.
Qed.

Lemma at_most_max_pages_requests_witness :
  fst (_paginated_api_call (scripted (repeat (page full_page) 12))
         "https://api.github.com/repos/foo/bar/forks" None [])
    = Ret (Some (JArr (List.concat (repeat full_page 10)))) /\
  List.length (List.concat (repeat full_page 10)) = 1000%nat /\
  requested (snd (_paginated_api_call (scripted (repeat (page full_page) 12))
         "https://api.github.com/repos/foo/bar/forks" None []))
    = ([] ++ call_urls (get_api_url
                          "https://api.github.com/repos/foo/bar/forks" None)
                       10)%list.
Proof.
  apply (proj1 (proj2 at_most_max_pages_requests)
           (scripted (repeat (page full_page) 12))
           "https://api.github.com/repos/foo/bar/forks" None []
           (repeat full_page 10)).
  - reflexivity.
  - repeat constructor.
  - simpl. repeat split; reflexivity.
Defined.

(** C4: when no request fails the call returns the pages in the order
    they were fetched, as one list. The pages of such a call are full
    pages followed by one page that ends the loop, not full or numbered
    [max_pages]. A first page of fewer than 100 records takes one request
    and is returned as it is; three full pages and a page of 40 take four
    requests and give 340 records in page order. *)
Theorem success_returns_pages_in_order :
  (forall net api_endpoint extra_params w ps lastp,
      Forall full ps ->
      (List.length ps + 1 <= max_pages)%nat ->
      List.length lastp <> max_elements_per_page
        \/ (List.length ps + 1)%nat = max_pages ->
      serves net (requested w)
             (call_urls (get_api_url api_endpoint extra_params)
                        (List.length ps + 1))
             (map page (ps ++ [lastp])%list) ->
      fst (_paginated_api_call net api_endpoint extra_params w)
        = Ret (Some (JArr (List.concat (ps ++ [lastp])%list))) /\
      requested (snd (_paginated_api_call net api_endpoint extra_params w))
        = (requested w
           ++ call_urls (get_api_url api_endpoint extra_params)
                        (List.length ps + 1))%list) /\
  (forall net api_endpoint extra_params w p,
      (List.length p < 100)%nat ->
      net (requested w) (get_api_url api_endpoint extra_params) = page p ->
      fst (_paginated_api_call net api_endpoint extra_params w)
        = Ret (Some (JArr p)) /\
      requested (snd (_paginated_api_call net api_endpoint extra_params w))
        = (requested w ++ [get_api_url api_endpoint extra_params])%list) /\
  (forall net api_endpoint extra_params w p1 p2 p3 p4,
      full p1 -> full p2 -> full p3 -> List.length p4 = 40%nat ->
      serves net (requested w)
             (call_urls (get_api_url api_endpoint extra_params) 4)
             [page p1; page p2; page p3; page p4] ->
      fst (_paginated_api_call net api_endpoint extra_params w)
        = Ret (Some (JArr (p1 ++ p2 ++ p3 ++ p4)%list)) /\
      List.length (p1 ++ p2 ++ p3 ++ p4)%list = 340%nat /\
      requested (snd (_paginated_api_call net api_endpoint extra_params w))
        = (requested w
           ++ call_urls (get_api_url api_endpoint extra_params) 4)%list).
Proof.
  split; [|split].
  - intros. apply call_pages_done; assumption.
  - intros net api_endpoint extra_params w p Hp H.
    destruct (call_pages_done net api_endpoint extra_params [] p w)
      as [Hr Hq];
      [constructor|unfold max_pages; simpl; lia
      |left; unfold max_elements_per_page; lia
      |simpl; split; [exact H|exact I]|].
    rewrite Hr, Hq. simpl. rewrite app_nil_r. split; reflexivity.
  - intros net api_endpoint extra_params w p1 p2 p3 p4 H1 H2 H3 H4 Hs.
    destruct (call_pages_done net api_endpoint extra_params [p1; p2; p3] p4 w)
      as [Hr Hq];
      [repeat constructor; assumption|unfold max_pages; simpl; lia
      |left; unfold max_elements_per_page; lia|exact Hs|].
    rewrite Hr, Hq. simpl. rewrite app_nil_r. split; [reflexivity|].
    split; [|reflexivity].
    rewrite !length_app, H1, H2, H3, H4. reflexivity.
Qed.

Lemma success_returns_pages_in_order_witness :
  fst (_paginated_api_call
         (scripted [page full_page; page full_page; page full_page;
                    page short_page])
         "https://api.github.com/repos/foo/bar/forks" None [])
    = Ret (Some (JArr (full_page ++ full_page ++ full_page
                       ++ short_page)%list)) /\
  List.length (full_page ++ full_page ++ full_page ++ short_page)%list
    = 340%nat /\
  requested (snd (_paginated_api_call
         (scripted [page full_page; page full_page; page full_page;
                    page short_page])
         "https://api.github.com/repos/foo/bar/forks" None []))
    = ([] ++ call_urls (get_api_url
                          "https://api.github.com/repos/foo/bar/forks" None)
                       4)%list.
Proof.
  apply (proj2 (proj2 success_returns_pages_in_order)
           (scripted [page full_page; page full_page; page full_page;
                      page short_page])
           "https://api.github.com/repos/foo/bar/forks" None []
           full_page full_page full_page short_page).
  - reflexivity.
  - reflexivity.
  - reflexivity.
  - reflexivity.
  - simpl. repeat split; reflexivity.
Defined.

(** ** Request URLs *)

Lemma append_assoc (a b c : string) : (a ++ b) ++ c = a ++ (b ++ c).
Proof. induction a as [|x a IH]; simpl; [reflexivity|f_equal; exact IH]. Qed.

Lemma append_empty (a : string) : a ++ "" = a.
Proof. induction a as [|x a IH]; simpl; [reflexivity|f_equal; exact IH]. Qed.



(** C10: an empty string of extra parameters is treated as [None]: both
    give the endpoint followed by [?per_page=100]. *)
Theorem empty_extra_params_is_none (api_endpoint : string) :
  get_api_url api_endpoint (Some "") = get_api_url api_endpoint None /\
  get_api_url api_endpoint (Some "") = api_endpoint ++ "?per_page=100".
Proof.
  split; [reflexivity|].
  unfold get_api_url. simpl. rewrite append_empty. apply append_assoc.
Qed.

(** ** Total counts *)

(** C9: each total-count accessor returns the length of its collection
    when the collection is a list and raises when it is [None]. *)
Theorem total_counts (self : t) :
  ((forall l, contributors self = Some (JArr l) ->
              get_total_contributors self = Ret (List.length l)) /\
   (contributors self = None ->
    get_total_contributors self = Raise TypeError)) /\
  ((forall l, forks self = Some (JArr l) ->
              get_total_forks self = Ret (List.length l)) /\
   (forks self = None -> get_total_forks self = Raise TypeError)) /\
  ((forall l, releases self = Some (JArr l) ->
              get_total_releases self = Ret (List.length l)) /\
   (releases self = None -> get_total_releases self = Raise TypeError)) /\
  ((forall l, issues self = Some (JArr l) ->
              get_total_issues self = Ret (List.length l)) /\
   (issues self = None -> get_total_issues self = Raise TypeError)) /\
  ((forall l, commits self = Some (JArr l) ->
              get_total_commits self = Ret (List.length l)) /\
   (commits self = None -> get_total_commits self = Raise TypeError)).
Proof.
  unfold get_total_contributors, get_total_forks, get_total_releases,
    get_total_issues, get_total_commits.
  repeat split; intros; match goal with H : _ = _ |- _ => rewrite H end;
    reflexivity.
Qed.

Lemma total_counts_witness :
  get_total_contributors
    (mk "https://github.com/foo/bar" "foo" "bar"
        (Some (JArr [JNull; JNull; JNull])) None None None None None)
  = Ret 3%nat /\
  get_total_forks
    (mk "https://github.com/foo/bar" "foo" "bar"
        (Some (JArr [JNull; JNull; JNull])) None None None None None)
  = Raise TypeError.
Proof.
  pose (self := mk "https://github.com/foo/bar" "foo" "bar"
                   (Some (JArr [JNull; JNull; JNull]))
                   None None None None None).
  split.
  - apply (proj1 (proj1 (total_counts self)) [JNull; JNull; JNull]).
    reflexivity.
  - apply (proj2 (proj1 (proj2 (total_counts self)))). reflexivity.
Defined.

End FetchFacts.

(** ** Dates *)

Module DatetimeFacts.
Import Datetime.

Local Open Scope Z_scope.

(** *** Parsing the fixed format *)

Lemma in_zrange lo k n :
  lo <= n < lo + k -> In n (zrange lo k).
Proof.
  intros H. unfold zrange. apply in_map_iff.
  exists (Z.to_nat (n - lo)). split; [lia|].
  apply in_seq. lia.
Qed.

Lemma match_alt_app_some alt : forall x s cap r,
  match_alt alt x = Some (cap, r) ->
  match_alt alt (x ++ s) = Some (cap, (r ++ s)%string).
Proof.
  induction alt as [|c alt IH]; intros x s cap r; simpl.
  - intros H. injection H as <- <-. reflexivity.
  - destruct x as [|a x]; [discriminate|]. simpl.
    destruct (in_range c a); [|discriminate].
    destruct (match_alt alt x) as [[cap' r']|] eqn:E; [|discriminate].
    intros H. injection H as <- <-. rewrite (IH _ s _ _ E). reflexivity.
Qed.

Lemma match_alt_app_none alt : forall x s,
  (List.length alt <= String.length x)%nat ->
  match_alt alt x = None ->
  match_alt alt (x ++ s) = None.
Proof.
  induction alt as [|c alt IH]; intros x s Hlen; simpl; [discriminate|].
  destruct x as [|a x]; [simpl in Hlen; lia|]. simpl in *.
  destruct (in_range c a); [|reflexivity].
  destruct (match_alt alt x) as [[cap' r']|] eqn:E; [discriminate|].
  intros _. rewrite (IH x s); [reflexivity|lia|exact E].
Qed.

Lemma match_lit c items s :
  match_items (Lit c :: items) (String c s) = match_items items s.
Proof. simpl. rewrite Ascii.eqb_refl. reflexivity. Qed.

(** A directive that reads [x] on its own reads it in front of any text
    that the rest of the format matches. *)
Lemma match_field alts items x s caps rest :
  field_ok alts x = true ->
  match_items items s = Some (caps, rest) ->
  match_items (Field alts :: items) (x ++ s) = Some (x :: caps, rest).
Proof.
  unfold field_ok. intros H Hrest.
  apply andb_true_iff in H. destruct H as [Hlen Hfirst]. simpl.
  induction alts as [|alt alts IH]; simpl in *; [discriminate|].
  apply andb_true_iff in Hlen. destruct Hlen as [Hl Hlen].
  apply Nat.leb_le in Hl.
  destruct (match_alt alt x) as [[cap r]|] eqn:E.
  - destruct r; [|discriminate]. apply String.eqb_eq in Hfirst. subst cap.
    rewrite (match_alt_app_some _ _ s _ _ E). simpl. rewrite Hrest.
    reflexivity.
  - rewrite (match_alt_app_none _ _ s Hl E). apply IH; assumption.
Qed.

Lemma reads_all alts pad lo k n :
  forallb (reads alts pad) (zrange lo k) = true ->
  lo <= n < lo + k ->
  field_ok alts (pad n) = true /\ int_of 0 (pad n) = n.
Proof.
  intros H Hn. rewrite forallb_forall in H.
  specialize (H n (in_zrange _ _ _ Hn)). unfold reads in H.
  apply andb_true_iff in H. destruct H as [H1 H2].
  apply Z.eqb_eq in H2. split; assumption.
Qed.

Lemma reads_Y : forallb (reads (alts_of re_Y) pad4) (zrange 0 10000) = true.
Proof. vm_compute. reflexivity. Qed.

Lemma reads_m : forallb (reads (alts_of re_m) pad2) (zrange 1 12) = true.
Proof. vm_compute. reflexivity. Qed.

Lemma reads_d : forallb (reads (alts_of re_d) pad2) (zrange 1 31) = true.
Proof. vm_compute. reflexivity. Qed.

Lemma reads_H : forallb (reads (alts_of re_H) pad2) (zrange 0 24) = true.
Proof. vm_compute. reflexivity. Qed.

Lemma reads_M : forallb (reads (alts_of re_M) pad2) (zrange 0 60) = true.
Proof. vm_compute. reflexivity. Qed.

Lemma reads_S : forallb (reads (alts_of re_S) pad2) (zrange 0 60) = true.
Proof. vm_compute. reflexivity. Qed.

Lemma days_in_month_le y m : days_in_month y m <= 31.
Proof.
  unfold days_in_month.
  destruct (m =? 2); [destruct (is_leap y); lia|].
  destruct (_ || _)%bool; lia.
Qed.

Lemma valid_ranges d :
  valid d = true ->
  (1 <= year d <= 9999) /\ (1 <= month d <= 12) /\
  (1 <= day d <= days_in_month (year d) (month d)) /\
  (0 <= hour d <= 23) /\ (0 <= minute d <= 59) /\ (0 <= second d <= 59) /\
  (0 <= microsecond d <= 999999).
Proof.
  unfold valid. intros H.
  repeat (apply andb_true_iff in H; destruct H as [H ?]).
  repeat match goal with
         | H : (_ <=? _) = true |- _ => apply Z.leb_le in H
         end.
  lia.
Qed.

(** [strptime] reads a date string back as the date and time it was
    written from. *)
Lemma strptime_commit_date_string Y m d H M S :
  valid (mk Y m d H M S 0 None) = true ->
  strptime (commit_date_string Y m d H M S) = Ret (mk Y m d H M S 0 None).
Proof.
  intros Hv. pose proof (valid_ranges _ Hv) as R. simpl in R.
  pose proof (days_in_month_le Y m) as Hd.
  destruct (reads_all _ _ _ _ Y reads_Y) as [fY iY]; [lia|].
  destruct (reads_all _ _ _ _ m reads_m) as [fm im]; [lia|].
  destruct (reads_all _ _ _ _ d reads_d) as [fd id]; [lia|].
  destruct (reads_all _ _ _ _ H reads_H) as [fH iH]; [lia|].
  destruct (reads_all _ _ _ _ M reads_M) as [fM iM]; [lia|].
  destruct (reads_all _ _ _ _ S reads_S) as [fS iS]; [lia|].
  unfold strptime, commit_date_string, commit_date_format.
  assert (E : match_items
                [re_Y; Lit "-"; re_m; Lit "-"; re_d; Lit "T";
                 re_H; Lit ":"; re_M; Lit ":"; re_S; Lit "Z"]
                (pad4 Y ++ "-" ++ pad2 m ++ "-" ++ pad2 d ++ "T"
                 ++ pad2 H ++ ":" ++ pad2 M ++ ":" ++ pad2 S ++ "Z")
              = Some ([pad4 Y; pad2 m; pad2 d; pad2 H; pad2 M; pad2 S],
                      EmptyString)).
  { apply (match_field (alts_of re_Y)); [exact fY|].
    change ("-" ++ ?x)%string with (String "-" x). rewrite match_lit.
    apply (match_field (alts_of re_m)); [exact fm|].
    change ("-" ++ ?x)%string with (String "-" x). rewrite match_lit.
    apply (match_field (alts_of re_d)); [exact fd|].
    change ("T" ++ ?x)%string with (String "T" x). rewrite match_lit.
    apply (match_field (alts_of re_H)); [exact fH|].
    change (":" ++ ?x)%string with (String ":" x). rewrite match_lit.
    apply (match_field (alts_of re_M)); [exact fM|].
    change (":" ++ ?x)%string with (String ":" x). rewrite match_lit.
    apply (match_field (alts_of re_S)); [exact fS|].
    reflexivity. }
  rewrite E, iY, im, id, iH, iM, iS. unfold new. rewrite Hv. reflexivity.
Qed.

(** *** The order of naive values is the order of time *)

Lemma days_before_year_succ y :
  days_before_year (y + 1) = days_before_year y + year_length y.
Proof.
  unfold days_before_year, year_length, is_leap.
  replace (y + 1 - 1) with y by lia.
  destruct (Z.eqb_spec (y mod 4) 0) as [E4|E4];
    destruct (Z.eqb_spec (y mod 100) 0) as [E100|E100];
    destruct (Z.eqb_spec (y mod 400) 0) as [E400|E400]; simpl;
    Z.div_mod_to_equations; lia.
Qed.

Lemma year_length_ge y : 365 <= year_length y.
Proof. unfold year_length. destruct (is_leap y); lia. Qed.

Lemma days_before_year_mono (k : nat) y :
  days_before_year y <= days_before_year (y + Z.of_nat k).
Proof.
  induction k as [|k IH].
  - replace (y + Z.of_nat 0) with y by lia. lia.
  - replace (y + Z.of_nat (S k)) with (y + Z.of_nat k + 1) by lia.
    rewrite days_before_year_succ.
    pose proof (year_length_ge (y + Z.of_nat k)). lia.
Qed.

Lemma days_before_next_year y y' :
  y < y' -> days_before_year y + year_length y <= days_before_year y'.
Proof.
  intros H. rewrite <- days_before_year_succ.
  replace y' with (y + 1 + Z.of_nat (Z.to_nat (y' - y - 1))) by lia.
  apply days_before_year_mono.
Qed.

Ltac eval_tests :=
  cbv beta iota delta
    [Z.eqb Z.leb Z.compare Pos.compare Pos.compare_cont Pos.eqb orb].

Ltac month_cases m :=
  let H := fresh in
  assert (H : m = 1 \/ m = 2 \/ m = 3 \/ m = 4 \/ m = 5 \/ m = 6 \/
              m = 7 \/ m = 8 \/ m = 9 \/ m = 10 \/ m = 11 \/ m = 12) by lia;
  repeat (destruct H as [H|H]); subst m.

(** A day of the year is within the year. *)
Lemma day_of_year_bounds y m d :
  1 <= m <= 12 -> 1 <= d <= days_in_month y m ->
  1 <= days_before_month y m + d <= year_length y.
Proof.
  intros Hm. unfold year_length, days_in_month, days_before_month.
  month_cases m; eval_tests; destruct (is_leap y); lia.
Qed.

(** The days of a month come before the days of a later month. *)
Lemma days_before_month_mono y m m' d :
  1 <= m -> m < m' -> m' <= 12 -> d <= days_in_month y m ->
  days_before_month y m + d <= days_before_month y m'.
Proof.
  intros H1 H2 H3. unfold days_in_month, days_before_month.
  month_cases m; month_cases m'; eval_tests; try lia;
    destruct (is_leap y); lia.
Qed.

(** Dates in calendar order have ordinals in the same order. *)
Lemma toordinal_lt a b :
  valid a = true -> valid b = true ->
  year a < year b
  \/ (year a = year b /\ month a < month b)
  \/ (year a = year b /\ month a = month b /\ day a < day b) ->
  toordinal a < toordinal b.
Proof.
  intros Ha Hb H.
  apply valid_ranges in Ha. apply valid_ranges in Hb.
  unfold toordinal. destruct H as [H|[[Hy H]|(Hy & Hm & H)]].
  - pose proof (days_before_next_year _ _ H).
    pose proof (day_of_year_bounds (year a) (month a) (day a)).
    pose proof (day_of_year_bounds (year b) (month b) (day b)).
    lia.
  - rewrite <- Hy in *.
    pose proof (days_before_month_mono (year a) (month a) (month b) (day a)).
    lia.
  - rewrite Hy, Hm. lia.
Qed.

Ltac lex_step x y :=
  let L := fresh "L" in
  destruct (Z.lt_trichotomy x y) as [L|[L|L]];
  [ rewrite (proj2 (Z.ltb_lt x y) L)
  | subst; rewrite Z.ltb_irrefl, Z.eqb_refl
  | rewrite (proj2 (Z.ltb_ge x y)) by lia;
    rewrite (proj2 (Z.eqb_neq x y)) by lia ];
  cbn [orb andb].

(** Two valid naive values compare as their instants do. *)
Lemma tuple_lt_wall_clock a b :
  valid a = true -> valid b = true ->
  tuple_lt (fields a) (fields b) = (wall_clock a <? wall_clock b).
Proof.
  intros Ha Hb.
  pose proof (toordinal_lt a b Ha Hb) as Hab.
  pose proof (toordinal_lt b a Hb Ha) as Hba.
  pose proof (valid_ranges _ Ha) as Ra.
  pose proof (valid_ranges _ Hb) as Rb.
  clear Ha Hb.
  destruct a as [y1 m1 d1 h1 mi1 s1 u1 o1], b as [y2 m2 d2 h2 mi2 s2 u2 o2].
  unfold fields, wall_clock, toordinal in *. cbn [tuple_lt] in *.
  cbn [year month day hour minute second microsecond] in *.
  lex_step y1 y2; [symmetry; apply Z.ltb_lt; lia| |
                   symmetry; apply Z.ltb_ge; lia].
  lex_step m1 m2; [symmetry; apply Z.ltb_lt; lia| |
                   symmetry; apply Z.ltb_ge; lia].
  lex_step d1 d2; [symmetry; apply Z.ltb_lt; lia| |
                   symmetry; apply Z.ltb_ge; lia].
  clear Hab Hba.
  lex_step h1 h2; [symmetry; apply Z.ltb_lt; lia| |
                   symmetry; apply Z.ltb_ge; lia].
  lex_step mi1 mi2; [symmetry; apply Z.ltb_lt; lia| |
                     symmetry; apply Z.ltb_ge; lia].
  lex_step s1 s2; [symmetry; apply Z.ltb_lt; lia| |
                   symmetry; apply Z.ltb_ge; lia].
  lex_step u1 u2; [symmetry; apply Z.ltb_lt; lia| |
                   symmetry; apply Z.ltb_ge; lia].
  symmetry. apply Z.ltb_irrefl.
Qed.

(** *** The date helper *)

(** C8 as stated fails: the date parsed from a commit is naive, and
    comparing it with an aware reference date raises [TypeError]. *)
Lemma aware_reference_date_raises :
  valid (mk 2021 1 1 0 0 0 0 (Some 0)) = true /\
  is_commit_before_date (commit_dated "2020-01-01T00:00:00Z")
                        (mk 2021 1 1 0 0 0 0 (Some 0))
  = Raise TypeError.
Proof. split; reflexivity. Qed.

(** C8 amended: for a commit whose author date is the fixed-format string
    of a valid date and time, and a naive reference date,
    [is_commit_before_date] returns whether the commit's instant is
    strictly before the reference's. A commit of 2020-01-01 is before
    2021-01-01, and a commit of 2021-01-01 is not before 2020-01-01. *)
Theorem commit_before_naive_date :
  (forall commit Y m d H M S date,
      valid (mk Y m d H M S 0 None) = true ->
      author_date commit = Ret (JStr (commit_date_string Y m d H M S)) ->
      valid date = true ->
      utcoffset date = None ->
      is_commit_before_date commit date
      = Ret (wall_clock (mk Y m d H M S 0 None) <? wall_clock date)) /\
  is_commit_before_date (commit_dated "2020-01-01T00:00:00Z")
                        (mk 2021 1 1 0 0 0 0 None) = Ret true /\
  is_commit_before_date (commit_dated "2021-01-01T00:00:00Z")
                        (mk 2020 1 1 0 0 0 0 None) = Ret false.
Proof.
  split; [|split; reflexivity].
  intros commit Y m d H M S date Hv Hc Hd Hn.
  unfold is_commit_before_date. rewrite Hc. cbn [obind].
  rewrite (strptime_commit_date_string _ _ _ _ _ _ Hv). cbn [obind].
  unfold lt. rewrite Hn. cbn [utcoffset]. f_equal.
  apply tuple_lt_wall_clock; assumption.
Qed.

Lemma commit_before_naive_date_witness :
  is_commit_before_date (commit_dated "2019-02-28T23:59:59Z")
                        (mk 2019 3 1 0 0 0 0 None)
  = Ret (wall_clock (mk 2019 2 28 23 59 59 0 None)
         <? wall_clock (mk 2019 3 1 0 0 0 0 None)).
Proof.
  apply (proj1 commit_before_naive_date
           (commit_dated "2019-02-28T23:59:59Z") 2019 2 28 23 59 59
           (mk 2019 3 1 0 0 0 0 None)); reflexivity.
Defined.

End DatetimeFacts.

(** ** More on URL resolution *)

Module UrlFacts.
Import GithubRepo.

Lemma split_app_sep (sep : ascii) (s : string) :
  split sep (s ++ String sep "") = (split sep s ++ [""])%list.
Proof.
  induction s as [|c s IH]; simpl.
  - rewrite Ascii.eqb_refl. reflexivity.
  - destruct (Ascii.eqb c sep); [rewrite IH; reflexivity|].
    rewrite IH. pose proof (split_nonempty sep s) as Hn.
    destruct (split sep s) as [|h t]; [contradiction|]. reflexivity.
Qed.

Lemma join_two_last (sep : ascii) (pre : list string) (o n : string) :
  join sep (pre ++ [o; n])
  = match pre with
    | [] => ""
    | _ => join sep pre ++ String sep ""
    end ++ o ++ String sep n.
Proof.
  induction pre as [|x pre IH]; [reflexivity|].
  change ((x :: pre) ++ [o; n])%list with (x :: (pre ++ [o; n]))%list.
  destruct pre as [|y pre].
  - simpl. rewrite FetchFacts.append_assoc. reflexivity.
  - change (join sep (x :: ((y :: pre) ++ [o; n])%list))
      with (x ++ String sep (join sep ((y :: pre) ++ [o; n])%list)).
    rewrite IH.
    change (join sep (x :: y :: pre))
      with (x ++ String sep (join sep (y :: pre))).
    rewrite !FetchFacts.append_assoc. reflexivity.
Qed.

Lemma get_name_is_last url w :
  fst (get_name url w) = Ret (last (split "/" url) "").
Proof.
  unfold get_name. rewrite GithubRepoFacts.parse_github_url_run.
  destruct (split "/" url) as [|x l] eqn:E;
    [exfalso; eapply split_nonempty; exact E|].
  destruct (@exists_last _ (x :: l)) as (pre & n & E'); [discriminate|].
  rewrite E', last_last. apply py_index_last.
Qed.

(** X1: what [get_owner] and [get_name] return are the two segments the URL
    ends with: the URL is a prefix (empty, or ending in a slash), the
    owner, a slash and the name, and neither owner nor name contains a
    slash. *)
Theorem url_ends_with_owner_and_name url w w' o n :
  fst (get_owner url w) = Ret o ->
  fst (get_name url w') = Ret n ->
  contains "/" o = false /\ contains "/" n = false /\
  exists pre, split "/" url = (pre ++ [o; n])%list /\
              url = url_prefix pre ++ o ++ "/" ++ n.
Proof.
  unfold get_owner, get_name. rewrite !GithubRepoFacts.parse_github_url_run.
  intros Ho Hn.
  destruct (contains "/" url) eqn:Hc.
  2:{ rewrite (split_without_sep _ _ Hc) in Ho. discriminate Ho. }
  apply split_length_contains in Hc.
  destruct (two_last _ Hc) as (pre & o' & n' & E).
  rewrite E in Ho, Hn. rewrite py_index_second_last in Ho.
  change (pre ++ [o'; n'])%list with (pre ++ [o'] ++ [n'])%list in Hn.
  rewrite app_assoc, py_index_last in Hn.
  injection Ho as ->. injection Hn as ->.
  split; [|split].
  - apply (split_no_sep "/" url). rewrite E. apply in_or_app.
    right. left. reflexivity.
  - apply (split_no_sep "/" url). rewrite E. apply in_or_app.
    right. right. left. reflexivity.
  - exists pre. split; [exact E|].
    rewrite <- (join_split "/" url) at 1. rewrite E, join_two_last.
    unfold url_prefix. destruct pre; reflexivity.
Qed.

Lemma url_ends_with_owner_and_name_witness :
  contains "/" "foo" = false /\ contains "/" "bar" = false /\
  exists pre, split "/" "https://github.com/foo/bar" = (pre ++ ["foo"; "bar"])%list /\
              "https://github.com/foo/bar" = url_prefix pre ++ "foo" ++ "/" ++ "bar".
Proof.
  apply (url_ends_with_owner_and_name "https://github.com/foo/bar" [] []);
    reflexivity.
Defined.

(** X2: a URL written with a trailing slash resolves to an empty name, and to
    the owner that the name would be without the slash. *)
Theorem trailing_slash_shifts_owner_and_name url w :
  fst (get_name (url ++ "/") w) = Ret "" /\
  fst (get_owner (url ++ "/") w) = fst (get_name url w).
Proof.
  rewrite get_name_is_last. rewrite (get_name_is_last url).
  unfold get_owner. rewrite GithubRepoFacts.parse_github_url_run.
  rewrite split_app_sep. split.
  - rewrite last_last. reflexivity.
  - destruct (split "/" url) as [|x l] eqn:E;
      [exfalso; eapply split_nonempty; exact E|].
    destruct (@exists_last _ (x :: l)) as (pre & n & E').
    { discriminate. }
    rewrite E', last_last, <- app_assoc. apply py_index_second_last.
Qed.

End UrlFacts.

(** ** More on the paginated fetch *)

Module TranscriptFacts.
Import GithubRepo.

Lemma serves_app net us1 : forall hist rs1 us2 rs2,
  List.length us1 = List.length rs1 ->
  serves net hist (us1 ++ us2)%list (rs1 ++ rs2)%list ->
  serves net hist us1 rs1 /\ serves net (hist ++ us1)%list us2 rs2.
Proof.
  induction us1 as [|u us1 IH]; intros hist rs1 us2 rs2 Hlen Hs;
    destruct rs1 as [|r rs1]; try discriminate Hlen.
  - simpl in *. rewrite app_nil_r. split; [exact I|exact Hs].
  - simpl in Hs. destruct Hs as [H1 Hs]. injection Hlen as Hlen.
    destruct (IH _ _ _ _ Hlen Hs) as [Ha Hb]. simpl. split; [split|].
    + exact H1.
    + exact Ha.
    + rewrite <- app_assoc in Hb. exact Hb.
Qed.

Lemma pages_events_succ url pn k :
  pages_events url pn (S k)
  = (body_events url api_headers pn ++ pages_events url (pn + 1) k)%list.
Proof.
  unfold pages_events. simpl. replace (S pn) with (pn + 1)%nat by lia.
  reflexivity.
Qed.

Lemma pages_events_last url pn k :
  pages_events url pn (S k)
  = (pages_events url pn k ++ body_events url api_headers (pn + k))%list.
Proof.
  unfold pages_events. rewrite seq_S, flat_map_app. reflexivity.
Qed.

Lemma requested_pages_events url pn k :
  requested (pages_events url pn k) = map (page_url url) (seq (pn + 1) k).
Proof.
  revert pn. induction k as [|k IH]; intros pn; [reflexivity|].
  rewrite pages_events_succ, requested_app, IH. simpl.
  replace (S (pn + 1)) with (pn + 1 + 1)%nat by lia. reflexivity.
Qed.

Section Loop.

Variable net : Network.
Variable url : string.

(** The passes that fetch full pages, with the world they leave. *)
Lemma loop_full_pages ps : forall l pn w f,
  Forall full ps ->
  (pn + List.length ps < max_pages)%nat ->
  serves net (requested w)
         (map (page_url url) (seq (pn + 1) (List.length ps)))
         (map page ps) ->
  paginate_loop net (List.length ps + f) url api_headers true (JArr l) pn w
  = paginate_loop net f url api_headers true
      (JArr (l ++ List.concat ps)%list) (pn + List.length ps)
      (w ++ pages_events url pn (List.length ps))%list.
Proof.
  induction ps as [|p ps IH]; intros l pn w f Hfull Hlt Hs.
  - simpl. rewrite !app_nil_r, Nat.add_0_r. reflexivity.
  - simpl in Hs. destruct Hs as [H1 Hs].
    inversion Hfull as [|? ? Hp Hps]; subst. simpl in Hlt.
    simpl paginate_loop. unfold bind.
    rewrite (FetchFacts.loop_body_page net url api_headers l p pn w H1).
    rewrite (FetchFacts.full_eqb _ Hp).
    replace (pn + 1 <? max_pages)%nat with true
      by (symmetry; apply Nat.ltb_lt; lia).
    cbn [andb].
    rewrite IH; [|exact Hps|lia|].
    + simpl List.length. simpl List.concat.
      rewrite pages_events_succ, <- !app_assoc.
      replace (pn + 1 + List.length ps)%nat
        with (pn + S (List.length ps))%nat by lia.
      reflexivity.
    + rewrite (FetchFacts.requested_body_events url api_headers).
      replace (pn + 1 + 1)%nat with (S (pn + 1)) by lia. exact Hs.
Qed.

Lemma loop_ends_done l lastp pn w f :
  net (requested w) (page_url url (pn + 1)) = page lastp ->
  List.length lastp <> max_elements_per_page \/ (pn + 1)%nat = max_pages ->
  paginate_loop net (S f) url api_headers true (JArr l) pn w
  = (Ret (Some (JArr (l ++ lastp)%list)),
     (w ++ body_events url api_headers pn
        ++ [count_message (List.length (l ++ lastp)%list)])%list).
Proof.
  intros H Hend. simpl paginate_loop. unfold bind.
  rewrite (FetchFacts.loop_body_page net url api_headers l lastp pn w H).
  replace ((List.length lastp =? max_elements_per_page)
           && (pn + 1 <? max_pages))%nat with false.
  - replace (paginate_loop net f url api_headers false
               (JArr (l ++ lastp)%list) (pn + 1))
      with (after_loop (JArr (l ++ lastp)%list)) by (destruct f; reflexivity).
    rewrite FetchFacts.after_loop_list, <- app_assoc. reflexivity.
  - symmetry. apply andb_false_iff. destruct Hend as [Hn|He].
    + left. apply Nat.eqb_neq. exact Hn.
    + right. apply Nat.ltb_ge. lia.
Qed.

Lemma loop_ends_fail data pn w f :
  net (requested w) (page_url url (pn + 1)) = MaxRetryError ->
  paginate_loop net (S f) url api_headers true data pn w
  = (Ret (Some data), (w ++ body_events url api_headers pn)%list).
Proof.
  intros H. simpl paginate_loop. unfold bind.
  rewrite (FetchFacts.loop_body_fails net url api_headers data pn w H).
  reflexivity.
Qed.

Lemma loop_body_raises data pn w r e :
  net (requested w) (page_url url (pn + 1)) = r ->
  response_error r = Some e ->
  loop_body net url api_headers data pn w
  = (Raise e, (w ++ body_events url api_headers pn)%list).
Proof.
  intros H He.
  unfold loop_body, try_request, bind, logger_info, lift, ret, json_loads,
    body_events.
  simpl. rewrite requested_info, H, <- app_assoc. simpl app.
  destruct r as [|e'|[v|]]; simpl in He.
  - discriminate.
  - injection He as ->. reflexivity.
  - destruct (py_len v) as [n|e'|] eqn:E; try discriminate.
    injection He as ->. reflexivity.
  - injection He as ->. reflexivity.
Qed.

Lemma loop_ends_raise data pn w f r e :
  net (requested w) (page_url url (pn + 1)) = r ->
  response_error r = Some e ->
  paginate_loop net (S f) url api_headers true data pn w
  = (Raise e, (w ++ body_events url api_headers pn)%list).
Proof.
  intros H He. simpl paginate_loop. unfold bind.
  rewrite (loop_body_raises data pn w r e H He). reflexivity.
Qed.

End Loop.

Section Call.

Variable net : Network.
Variable api_endpoint : string.
Variable extra_params : option string.

Local Abbreviation url := (get_api_url api_endpoint extra_params).

Lemma requested_transcript w k :
  requested (w ++ first_events url ++ pages_events url 1 k)%list
  = (requested w ++ call_urls url (S k))%list.
Proof.
  rewrite !requested_app, requested_pages_events. reflexivity.
Qed.

Lemma call_first_raises w r e :
  net (requested w) url = r ->
  response_error r = Some e ->
  _paginated_api_call net api_endpoint extra_params w
  = (Raise e, (w ++ first_events url)%list).
Proof.
  intros H He. unfold _paginated_api_call.
  generalize max_pages. intros f.
  unfold _paginated_api_call_fuel, try_request, bind, logger_info, lift, ret,
    json_loads, first_events, api_headers.
  simpl. rewrite requested_info, H, <- app_assoc. simpl app.
  destruct r as [|e'|[v|]]; simpl in He.
  - discriminate.
  - injection He as ->. reflexivity.
  - destruct (py_len v) as [n|e'|] eqn:E; try discriminate.
    injection He as ->. reflexivity.
  - injection He as ->. reflexivity.
Qed.

Lemma call_first_value w v n :
  net (requested w) url = Responds (Some v) ->
  py_len v = Ret n ->
  _paginated_api_call net api_endpoint extra_params w
  = paginate_loop net max_pages url api_headers
      (n =? max_elements_per_page)%nat v 1 (w ++ first_events url)%list.
Proof.
  intros H Hn. unfold _paginated_api_call.
  generalize max_pages. intros f.
  unfold _paginated_api_call_fuel, try_request, bind, logger_info, lift, ret,
    json_loads, first_events, api_headers.
  simpl. rewrite requested_info, H, <- app_assoc. simpl app.
  rewrite Hn. reflexivity.
Qed.

(** The call up to the request that follows a full first page [p] and
    the full pages [ps]; [r] is the answer to that request. *)
Lemma call_after_full_pages p ps r w :
  full p -> Forall full ps ->
  (1 + List.length ps < max_pages)%nat ->
  serves net (requested w) (call_urls url (List.length ps + 2))
         (page p :: map page ps ++ [r])%list ->
  _paginated_api_call net api_endpoint extra_params w
  = paginate_loop net max_pages url api_headers true
      (JArr (p ++ List.concat ps)%list) (1 + List.length ps)
      (w ++ first_events url ++ pages_events url 1 (List.length ps))%list /\
  net (requested
         (w ++ first_events url ++ pages_events url 1 (List.length ps))%list)
      (page_url url (1 + List.length ps + 1)) = r.
Proof.
  intros Hp Hps Hlt Hs.
  replace (List.length ps + 2)%nat with (S (List.length ps + 1)) in Hs by lia.
  simpl in Hs. destruct Hs as [H1 Hs].
  rewrite seq_app, map_app in Hs.
  apply serves_app in Hs; [|rewrite !length_map, length_seq; reflexivity].
  destruct Hs as [Hs Hr]. simpl in Hr. destruct Hr as [Hr _].
  split.
  - rewrite (call_first_value w (JArr p) (List.length p) H1 eq_refl).
    rewrite (FetchFacts.full_eqb _ Hp).
    rewrite <- (FetchFacts.loop_fuel_irrelevant net url api_headers
                  (List.length ps + max_pages) max_pages true (JArr p) 1);
      [|unfold max_pages; lia|lia|lia].
    rewrite (loop_full_pages net url ps p 1); [|exact Hps|lia|].
    + rewrite <- app_assoc. reflexivity.
    + rewrite requested_app. exact Hs.
  - rewrite requested_transcript. simpl call_urls. rewrite <- app_assoc in Hr.
    replace (1 + List.length ps + 1)%nat with (2 + List.length ps)%nat by lia.
    exact Hr.
Qed.

End Call.

Lemma after_loop_cases data w :
  (exists n, py_len data = Ret n /\
     after_loop data w = (Ret (Some data), (w ++ [count_message n])%list)) \/
  (exists e, after_loop data w = (Raise e, w)).
Proof.
  unfold after_loop, bind, lift, logger_info, ret, count_message.
  destruct (py_len data) as [n|e|] eqn:E.
  - left. exists n. split; reflexivity.
  - right. exists e. reflexivity.
  - destruct data; discriminate.
Qed.

Lemma loop_returns_some net url headers f : forall p data pn w r,
  fst (paginate_loop net f url headers p data pn w) = Ret r -> r <> None.
Proof.
  induction f as [|f IH]; intros p data pn w r; destruct p; simpl.
  - discriminate.
  - destruct (after_loop_cases data w) as [(n & _ & ->)|(e & ->)]; simpl;
      intros H; [injection H as <-|]; discriminate.
  - unfold bind.
    destruct (loop_body net url headers data pn w) as [[c|e|] w'];
      try discriminate.
    destruct c as [d|p' d n].
    + simpl. intros H. injection H as <-. discriminate.
    + apply IH.
  - destruct (after_loop_cases data w) as [(n & _ & ->)|(e & ->)]; simpl;
      intros H; [injection H as <-|]; discriminate.
Qed.

Lemma loop_extends net url f : forall p data pn w,
  exists ext,
    snd (paginate_loop net f url api_headers p data pn w) = (w ++ ext)%list /\
    Forall api_event ext.
Proof.
  assert (A : forall data w, exists ext,
             snd (after_loop data w) = (w ++ ext)%list /\
             Forall api_event ext).
  { intros data w.
    destruct (after_loop_cases data w) as [(n & _ & ->)|(e & ->)]; simpl.
    - eexists. split; [reflexivity|]. repeat constructor.
    - exists []. rewrite app_nil_r. split; [reflexivity|constructor]. }
  assert (B : forall pn, Forall api_event (body_events url api_headers pn)).
  { intros pn. unfold body_events. repeat constructor. }
  induction f as [|f IH]; intros p data pn w; destruct p; simpl;
    try apply A.
  - exists []. rewrite app_nil_r. split; [reflexivity|constructor].
  - unfold bind.
    pose proof (FetchFacts.loop_body_world net url api_headers data pn w) as Hw.
    destruct (loop_body net url api_headers data pn w) as [[c|e|] w'];
      simpl in Hw; subst w'; try (eexists; split; [reflexivity|apply B]).
    destruct c as [d|p' d n]; [eexists; split; [reflexivity|apply B]|].
    destruct (IH p' d n (w ++ body_events url api_headers pn)%list)
      as (ext & -> & Hext).
    exists (body_events url api_headers pn ++ ext)%list.
    rewrite app_assoc. split; [reflexivity|].
    apply Forall_app. split; [apply B|exact Hext].
Qed.

Lemma call_first_value_done net api_endpoint extra_params w v n :
  net (requested w) (get_api_url api_endpoint extra_params)
    = Responds (Some v) ->
  py_len v = Ret n ->
  n <> max_elements_per_page ->
  _paginated_api_call net api_endpoint extra_params w
  = (Ret (Some v),
     (w ++ first_events (get_api_url api_endpoint extra_params)
        ++ [count_message n])%list).
Proof.
  intros H Hn Hne. rewrite (call_first_value _ _ _ w v n H Hn).
  apply Nat.eqb_neq in Hne. rewrite Hne.
  change (paginate_loop net max_pages (get_api_url api_endpoint extra_params)
            api_headers false v 1) with (after_loop v).
  destruct (after_loop_cases v
              (w ++ first_events (get_api_url api_endpoint extra_params))%list)
    as [(n' & Hn' & ->)|(e & He)].
  - rewrite Hn in Hn'. injection Hn' as <-. rewrite <- app_assoc.
    reflexivity.
  - unfold after_loop, bind, lift in He. rewrite Hn in He. discriminate He.
Qed.

(** X3: a first response that decodes to a value with a length other than
    100, of whatever JSON kind (a longer array, an error object, a
    string), is returned as it is after that one request, and its length
    is logged. *)
Theorem first_value_returned_unchanged net api_endpoint extra_params w v n :
  net (requested w) (get_api_url api_endpoint extra_params)
    = Responds (Some v) ->
  py_len v = Ret n ->
  n <> max_elements_per_page ->
  _paginated_api_call net api_endpoint extra_params w
  = (Ret (Some v),
     (w ++ first_events (get_api_url api_endpoint extra_params)
        ++ [count_message n])%list).
Proof. apply call_first_value_done. Qed.

Lemma first_value_returned_unchanged_witness :
  _paginated_api_call
    (scripted [Responds (Some (JObj [("message", JStr "Not Found")]))])
    "https://api.github.com/repos/foo/bar/forks" None []
  = (Ret (Some (JObj [("message", JStr "Not Found")])),
     ([] ++ first_events
              (get_api_url "https://api.github.com/repos/foo/bar/forks" None)
         ++ [count_message 1])%list).
Proof.
  apply (first_value_returned_unchanged
           (scripted [Responds (Some (JObj [("message", JStr "Not Found")]))])
           "https://api.github.com/repos/foo/bar/forks" None []
           (JObj [("message", JStr "Not Found")]) 1).
  - reflexivity.
  - reflexivity.
  - discriminate.
Defined.

(** X4: the call returns [None] exactly when its first request raises
    [MaxRetryError]: no later failure and no response turns the result
    into [None]. *)
Theorem none_only_when_first_request_fails net api_endpoint extra_params w :
  fst (_paginated_api_call net api_endpoint extra_params w) = Ret None
  <-> net (requested w) (get_api_url api_endpoint extra_params)
      = MaxRetryError.
Proof.
  split.
  - intros H.
    destruct (net (requested w) (get_api_url api_endpoint extra_params))
      as [|e|[v|]] eqn:E; [reflexivity| | |].
    + rewrite (call_first_raises _ _ _ w _ e E eq_refl) in H. discriminate H.
    + destruct (py_len v) as [n|e|] eqn:Hn.
      * rewrite (call_first_value _ _ _ w v n E Hn) in H.
        apply loop_returns_some in H. contradiction.
      * rewrite (call_first_raises _ _ _ w _ e E) in H; [discriminate H|].
        simpl. rewrite Hn. reflexivity.
      * destruct v; discriminate.
    + rewrite (call_first_raises _ _ _ w _ ValueError E eq_refl) in H.
      discriminate H.
  - intros H. unfold _paginated_api_call.
    rewrite (FetchFacts.call_first_fails _ _ _ _ _ H). reflexivity.
Qed.

Lemma none_only_when_first_request_fails_witness :
  scripted [] (requested [])
    (get_api_url "https://api.github.com/repos/foo/bar/forks" None)
  = MaxRetryError.
Proof.
  apply (proj1 (none_only_when_first_request_fails (scripted [])
                  "https://api.github.com/repos/foo/bar/forks" None [])).
  reflexivity.
Defined.

(** X5: a failure other than [MaxRetryError], a body that is not JSON and a
    JSON value without a length are not handled: after any number of full
    pages the exception leaves the call, and the pages fetched so far are
    not returned. *)
Theorem other_errors_propagate net api_endpoint extra_params w ps r e :
  Forall full ps ->
  (List.length ps < max_pages)%nat ->
  response_error r = Some e ->
  serves net (requested w)
         (call_urls (get_api_url api_endpoint extra_params)
                    (List.length ps + 1))
         (map page ps ++ [r])%list ->
  _paginated_api_call net api_endpoint extra_params w
  = (Raise e,
     (w ++ first_events (get_api_url api_endpoint extra_params)
        ++ pages_events (get_api_url api_endpoint extra_params) 1
                        (List.length ps))%list).
Proof.
  intros Hfull Hlt He Hs. destruct ps as [|p ps].
  - simpl in Hs. destruct Hs as [H1 _].
    rewrite (call_first_raises _ _ _ w r e H1 He). reflexivity.
  - inversion Hfull as [|? ? Hp Hps]; subst. simpl in Hlt.
    destruct (call_after_full_pages net api_endpoint extra_params p ps r w)
      as [Hc Hr]; [exact Hp|exact Hps|lia| |].
    { replace (List.length ps + 2)%nat
        with (List.length (p :: ps) + 1)%nat by (simpl; lia). exact Hs. }
    rewrite Hc. change max_pages with (S 9).
    rewrite (loop_ends_raise net _ _ _ _ 9 r e Hr He).
    simpl List.length. rewrite pages_events_last, <- !app_assoc.
    reflexivity.
Qed.

Lemma other_errors_propagate_witness :
  _paginated_api_call
    (scripted [page full_page; page full_page; Responds None])
    "https://api.github.com/repos/foo/bar/forks" None []
  = (Raise ValueError,
     ([] ++ first_events
              (get_api_url "https://api.github.com/repos/foo/bar/forks" None)
         ++ pages_events
              (get_api_url "https://api.github.com/repos/foo/bar/forks" None)
              1 (List.length [full_page; full_page]))%list).
Proof.
  apply (other_errors_propagate
           (scripted [page full_page; page full_page; Responds None])
           "https://api.github.com/repos/foo/bar/forks" None []
           [full_page; full_page] (Responds None) ValueError).
  - repeat constructor.
  - unfold max_pages. simpl. lia.
  - reflexivity.
  - simpl. repeat split; reflexivity.
Defined.

(** X6: a call that is not cut short ends by logging the number of records it
    returns; a call cut short by [MaxRetryError] on a later page returns
    without that line, its last event being the failed request. In both
    cases every request is preceded by one log line that names its URL. *)
Theorem transcript_of_a_call :
  (forall net api_endpoint extra_params w ps lastp,
      Forall full ps ->
      (List.length ps + 1 <= max_pages)%nat ->
      List.length lastp <> max_elements_per_page
        \/ (List.length ps + 1)%nat = max_pages ->
      serves net (requested w)
             (call_urls (get_api_url api_endpoint extra_params)
                        (List.length ps + 1))
             (map page (ps ++ [lastp])%list) ->
      snd (_paginated_api_call net api_endpoint extra_params w)
      = (w ++ first_events (get_api_url api_endpoint extra_params)
           ++ pages_events (get_api_url api_endpoint extra_params) 1
                           (List.length ps)
           ++ [count_message
                 (List.length (List.concat (ps ++ [lastp])%list))])%list) /\
  (forall net api_endpoint extra_params w ps,
      ps <> [] ->
      Forall full ps ->
      (List.length ps < max_pages)%nat ->
      serves net (requested w)
             (call_urls (get_api_url api_endpoint extra_params)
                        (List.length ps + 1))
             (map page ps ++ [MaxRetryError])%list ->
      snd (_paginated_api_call net api_endpoint extra_params w)
      = (w ++ first_events (get_api_url api_endpoint extra_params)
           ++ pages_events (get_api_url api_endpoint extra_params) 1
                           (List.length ps))%list).
Proof.
  split.
  - intros net api_endpoint extra_params w ps lastp Hfull Hle Hend Hs.
    destruct ps as [|p ps].
    + simpl in Hs. destruct Hs as [H1 _].
      destruct Hend as [Hn|He]; [|discriminate He].
      rewrite (call_first_value_done net _ _ w (JArr lastp)
                 (List.length lastp) H1 eq_refl Hn).
      simpl. rewrite app_nil_r. reflexivity.
    + inversion Hfull as [|? ? Hp Hps]; subst. simpl in Hle, Hend.
      rewrite map_app in Hs.
      destruct (call_after_full_pages net api_endpoint extra_params
                  p ps (page lastp) w) as [Hc Hr];
        [exact Hp|exact Hps|lia| |].
      { replace (List.length ps + 2)%nat
          with (List.length (p :: ps) + 1)%nat by (simpl; lia). exact Hs. }
      rewrite Hc. change max_pages with (S 9).
      rewrite (loop_ends_done net _ _ lastp _ _ 9 Hr);
        [|destruct Hend; [left; assumption|right; unfold max_pages in *; lia]].
      simpl snd. simpl List.length. simpl List.concat.
      rewrite pages_events_last, concat_app. simpl List.concat.
      rewrite app_nil_r, <- !app_assoc. reflexivity.
  - intros net api_endpoint extra_params w ps Hne Hfull Hlt Hs.
    destruct ps as [|p ps]; [contradiction|].
    inversion Hfull as [|? ? Hp Hps]; subst. simpl in Hlt.
    destruct (call_after_full_pages net api_endpoint extra_params
                p ps MaxRetryError w) as [Hc Hr];
      [exact Hp|exact Hps|lia| |].
    { replace (List.length ps + 2)%nat
        with (List.length (p :: ps) + 1)%nat by (simpl; lia). exact Hs. }
    rewrite Hc. change max_pages with (S 9).
    rewrite (loop_ends_fail net _ _ _ _ 9 Hr).
    simpl snd. simpl List.length.
    rewrite pages_events_last, <- !app_assoc. reflexivity.
Qed.

Lemma transcript_of_a_call_witness :
  snd (_paginated_api_call
         (scripted [page full_page; page full_page; MaxRetryError])
         "https://api.github.com/repos/foo/bar/forks" None [])
  = ([] ++ first_events
             (get_api_url "https://api.github.com/repos/foo/bar/forks" None)
        ++ pages_events
             (get_api_url "https://api.github.com/repos/foo/bar/forks" None)
             1 (List.length [full_page; full_page]))%list.
Proof.
  apply (proj2 transcript_of_a_call
           (scripted [page full_page; page full_page; MaxRetryError])
           "https://api.github.com/repos/foo/bar/forks" None []
           [full_page; full_page]).
  - discriminate.
  - repeat constructor.
  - unfold max_pages. simpl. lia.
  - simpl. repeat split; reflexivity.
Defined.

(** X7: whatever the network answers, the call only adds to the world, and
    every request it adds is a GET that carries the
    [Accept: application/vnd.github.v3+json] header and nothing else. *)
Theorem every_request_is_a_get_with_accept net api_endpoint extra_params w :
  exists added,
    snd (_paginated_api_call net api_endpoint extra_params w)
    = (w ++ added)%list /\
    Forall api_event added.
Proof.
  assert (F : Forall api_event
                (first_events (get_api_url api_endpoint extra_params))).
  { unfold first_events. repeat constructor. }
  destruct (net (requested w) (get_api_url api_endpoint extra_params))
    as [|e|[v|]] eqn:E.
  - unfold _paginated_api_call.
    rewrite (FetchFacts.call_first_fails _ _ _ _ _ E).
    eexists. split; [reflexivity|exact F].
  - rewrite (call_first_raises _ _ _ w _ e E eq_refl).
    eexists. split; [reflexivity|exact F].
  - destruct (py_len v) as [n|e|] eqn:Hn.
    + rewrite (call_first_value _ _ _ w v n E Hn).
      destruct (loop_extends net (get_api_url api_endpoint extra_params)
                  max_pages (n =? max_elements_per_page)%nat v 1
                  (w ++ first_events
                          (get_api_url api_endpoint extra_params))%list)
        as (ext & -> & Hext).
      eexists. rewrite <- app_assoc. split; [reflexivity|].
      apply Forall_app. split; [exact F|exact Hext].
    + rewrite (call_first_raises _ _ _ w _ e E);
        [|simpl; rewrite Hn; reflexivity].
      eexists. split; [reflexivity|exact F].
    + destruct v; discriminate.
  - rewrite (call_first_raises _ _ _ w _ ValueError E eq_refl).
    eexists. split; [reflexivity|exact F].
Qed.

(** *** The URLs of a call *)

Lemma str_of_nat_inj a b : str_of_nat a = str_of_nat b -> a = b.
Proof.
  unfold str_of_nat. intros H.
  apply (f_equal NilEmpty.uint_of_string) in H.
  rewrite !NilEmpty.usu in H. injection H as H.
  apply Unsigned.to_uint_inj, H.
Qed.

Lemma append_inj_l (a x y : string) : a ++ x = a ++ y -> x = y.
Proof.
  induction a as [|c a IH]; simpl; intros H; [exact H|].
  injection H as H. apply IH, H.
Qed.

Lemma length_append (a b : string) :
  String.length (a ++ b) = (String.length a + String.length b)%nat.
Proof. induction a as [|c a IH]; simpl; [reflexivity|rewrite IH; reflexivity]. Qed.

Lemma page_url_inj url a b : page_url url a = page_url url b -> a = b.
Proof.
  unfold page_url. intros H. apply append_inj_l in H.
  change (format "&page={}" [str_of_nat a])
    with ("&page=" ++ str_of_nat a ++ "") in H.
  change (format "&page={}" [str_of_nat b])
    with ("&page=" ++ str_of_nat b ++ "") in H.
  apply append_inj_l in H. rewrite !FetchFacts.append_empty in H.
  apply str_of_nat_inj, H.
Qed.

Lemma page_url_not_url url n : page_url url n <> url.
Proof.
  unfold page_url. intros H. apply (f_equal String.length) in H.
  rewrite length_append in H.
  change (format "&page={}" [str_of_nat n])
    with ("&page=" ++ str_of_nat n ++ "") in H.
  rewrite length_append in H. simpl in H. lia.
Qed.

Lemma call_urls_NoDup url n : NoDup (call_urls url n).
Proof.
  destruct n as [|k]; [constructor|]. simpl. constructor.
  - intros Hin. apply in_map_iff in Hin. destruct Hin as (i & Hi & _).
    exact (page_url_not_url url i Hi).
  - generalize (seq_NoDup k 2). generalize (seq 2 k). intros l Hl.
    induction Hl as [|x l Hx Hl IH]; simpl; constructor; [|exact IH].
    intros Hin. apply in_map_iff in Hin. destruct Hin as (y & Hy & Hyl).
    apply page_url_inj in Hy. subst y. contradiction.
Qed.

(** X8: whatever the network answers, the URLs that one call requests are
    pairwise distinct: no page is asked for twice. *)
Theorem no_page_requested_twice net api_endpoint extra_params w :
  exists urls,
    requested (snd (_paginated_api_call net api_endpoint extra_params w))
    = (requested w ++ urls)%list /\
    NoDup urls.
Proof.
  destruct (FetchFacts.call_requests net api_endpoint extra_params w)
    as (k & _ & Hr).
  eexists. split; [exact Hr|]. apply call_urls_NoDup.
Qed.

(** X9: when no page holds more than 100 records, a call that is not cut
    short returns at most 1000 records. *)
Theorem at_most_1000_records net api_endpoint extra_params w ps lastp :
  Forall full ps ->
  (List.length ps + 1 <= max_pages)%nat ->
  (List.length lastp < max_elements_per_page)%nat
    \/ (full lastp /\ (List.length ps + 1)%nat = max_pages) ->
  serves net (requested w)
         (call_urls (get_api_url api_endpoint extra_params)
                    (List.length ps + 1))
         (map page (ps ++ [lastp])%list) ->
  exists l,
    fst (_paginated_api_call net api_endpoint extra_params w)
      = Ret (Some (JArr l)) /\
    (List.length l <= 1000)%nat.
Proof.
  intros Hfull Hle Hlast Hs.
  destruct (FetchFacts.call_pages_done net api_endpoint extra_params
              ps lastp w) as [Hr _];
    [exact Hfull|exact Hle| |exact Hs|].
  { destruct Hlast as [Hl|[_ He]]; [left; lia|right; exact He]. }
  eexists. split; [exact Hr|].
  rewrite concat_app, length_app, (FetchFacts.length_concat_full _ Hfull).
  simpl List.concat. rewrite app_nil_r.
  assert (List.length lastp <= max_elements_per_page)%nat
    by (destruct Hlast as [Hl|[Hl _]]; [lia|rewrite Hl; lia]).
  unfold max_pages, max_elements_per_page in *. lia.
Qed.

Lemma at_most_1000_records_witness :
  exists l,
    fst (_paginated_api_call
           (scripted [page full_page; page full_page; page short_page])
           "https://api.github.com/repos/foo/bar/forks" None [])
      = Ret (Some (JArr l)) /\
    (List.length l <= 1000)%nat.
Proof.
  apply (at_most_1000_records
           (scripted [page full_page; page full_page; page short_page])
           "https://api.github.com/repos/foo/bar/forks" None []
           [full_page; full_page] short_page).
  - repeat constructor.
  - unfold max_pages. simpl. lia.
  - left. unfold max_elements_per_page. simpl. lia.
  - simpl. repeat split; reflexivity.
Defined.

(** *** The endpoint methods *)

Lemma get_api_url_none api_endpoint :
  get_api_url api_endpoint None = api_endpoint ++ "?per_page=100".
Proof.
  unfold get_api_url. simpl. rewrite FetchFacts.append_empty.
  apply FetchFacts.append_assoc.
Qed.

Lemma logged_call_requests net msg api_endpoint extra_params w :
  exists k, (1 <= k <= max_pages)%nat /\
    requested
      (snd (bind (logger_info msg)
                 (fun _ => _paginated_api_call net api_endpoint extra_params)
                 w))
    = (requested w
       ++ call_urls (get_api_url api_endpoint extra_params) k)%list.
Proof.
  unfold bind, logger_info.
  destruct (FetchFacts.call_requests net api_endpoint extra_params
              (w ++ [Info msg])%list) as (k & Hk & Hr).
  exists k. split; [exact Hk|]. rewrite Hr, requested_info. reflexivity.
Qed.

(** X10: the first request of [get_contributors], [get_forks], [get_releases]
    and [get_commits] is for that collection of the repository, with
    [?per_page=100] and no other parameter. *)
Theorem first_request_of_each_collection net self w :
  (exists rest,
      requested (snd (get_contributors net self w))
      = (requested w
         ++ (repo_endpoint self "contributors" ++ "?per_page=100")%string
            :: rest)%list) /\
  (exists rest,
      requested (snd (get_forks net self w))
      = (requested w
         ++ (repo_endpoint self "forks" ++ "?per_page=100")%string
            :: rest)%list) /\
  (exists rest,
      requested (snd (get_releases net self w))
      = (requested w
         ++ (repo_endpoint self "releases" ++ "?per_page=100")%string
            :: rest)%list) /\
  (exists rest,
      requested (snd (get_commits net self w))
      = (requested w
         ++ (repo_endpoint self "commits" ++ "?per_page=100")%string
            :: rest)%list).
Proof.
  assert (G : forall msg collection, exists rest,
             requested
               (snd (bind (logger_info msg)
                          (fun _ => _paginated_api_call net
                                      (repo_endpoint self collection) None)
                          w))
             = (requested w
                ++ (repo_endpoint self collection ++ "?per_page=100")%string
                   :: rest)%list).
  { intros msg collection.
    destruct (logged_call_requests net msg (repo_endpoint self collection)
                None w) as (k & [Hk _] & Hr).
    destruct k as [|k]; [lia|]. rewrite Hr. simpl call_urls.
    rewrite get_api_url_none. eexists. reflexivity. }
  repeat split.
  - apply (G (format "Getting contributors for repo: {}" [name self])
             "contributors").
  - apply (G (format "Getting forks for repo: {}" [name self]) "forks").
  - apply (G (format "Getting releases for repo: {}" [name self]) "releases").
  - apply (G (format "Getting commits for repo: {}" [name self]) "commits").
Qed.

End TranscriptFacts.

(** ** Construction *)

Module InitFacts.
Import GithubRepo.

Lemma bind_ret {A B} (m : M A) (k : A -> M B) w b w' :
  bind m k w = (Ret b, w') ->
  exists a w1, m w = (Ret a, w1) /\ k a w1 = (Ret b, w').
Proof.
  unfold bind. destruct (m w) as [[a|e|] w1]; try discriminate.
  intros H. exists a, w1. split; [reflexivity|exact H].
Qed.

(** *** Bounds that compose *)

Lemma at_most_ret {A} (a : A) : at_most 0 (ret a).
Proof.
  intros w. split; [discriminate|]. exists []. rewrite app_nil_r.
  split; [reflexivity|apply Nat.le_refl].
Qed.

Lemma at_most_bind {A B} n n' (m : M A) (k : A -> M B) :
  at_most n m -> (forall a, at_most n' (k a)) -> at_most (n + n') (bind m k).
Proof.
  intros Hm Hk w. destruct (Hm w) as (Ht & urls & Hr & Hl).
  unfold bind. destruct (m w) as [[a|e|] w1]; simpl in *.
  - destruct (Hk a w1) as (Ht' & urls' & Hr' & Hl'). split; [exact Ht'|].
    exists (urls ++ urls')%list. rewrite Hr', Hr, app_assoc, length_app.
    split; [reflexivity|lia].
  - split; [discriminate|]. exists urls. split; [exact Hr|lia].
  - contradiction.
Qed.

Lemma at_most_parse url position log_text :
  at_most 0 (_parse_github_url url position log_text).
Proof.
  intros w. unfold _parse_github_url, bind, lift, logger_info, ret.
  destruct (py_index (split "/" url) position) as [x|e|] eqn:E; simpl.
  - split; [discriminate|]. exists []. rewrite requested_info, app_nil_r.
    split; [reflexivity|apply Nat.le_refl].
  - split; [discriminate|]. exists []. rewrite app_nil_r.
    split; [reflexivity|apply Nat.le_refl].
  - unfold py_index in E. destruct (_ || _)%bool; [discriminate|].
    destruct (nth_error _ _); discriminate.
Qed.

Lemma at_most_logged_call net msg api_endpoint extra_params :
  at_most max_pages
    (bind (logger_info msg)
          (fun _ => _paginated_api_call net api_endpoint extra_params)).
Proof.
  intros w. split.
  - unfold bind, logger_info. apply FetchFacts.call_terminates.
  - destruct (TranscriptFacts.logged_call_requests net msg api_endpoint
                extra_params w) as (k & Hk & Hr).
    eexists. split; [exact Hr|].
    destruct k as [|k]; simpl; [lia|].
    rewrite length_map, length_seq. lia.
Qed.

(** X11: constructing a repository terminates and makes at most 50 requests,
    whatever the URL and whatever the network answers. *)
Theorem construction_makes_at_most_50_requests net url w :
  fst (__init__ net url w) <> OutOfFuel /\
  exists urls,
    requested (snd (__init__ net url w)) = (requested w ++ urls)%list /\
    (List.length urls <= 50)%nat.
Proof.
  assert (H : at_most (0 + (0 + (10 + (10 + (10 + (0 + (10 + (10 + 0))))))))
                      (__init__ net url)).
  { unfold __init__.
    apply at_most_bind; [apply at_most_parse|intros o].
    apply at_most_bind; [apply at_most_parse|intros n].
    apply at_most_bind; [apply at_most_logged_call|intros c].
    apply at_most_bind; [apply at_most_logged_call|intros f].
    apply at_most_bind; [apply at_most_logged_call|intros r].
    apply at_most_bind; [apply at_most_ret|intros s].
    apply at_most_bind; [apply at_most_logged_call|intros i].
    apply at_most_bind; [apply at_most_logged_call|intros c'].
    apply at_most_ret. }
  exact (H w).
Qed.

(** X12: a URL without a slash cannot be constructed from: [IndexError] is
    raised before anything is logged or requested. *)
Theorem construction_needs_a_slash net url w :
  contains "/" url = false ->
  __init__ net url w = (Raise IndexError, w).
Proof.
  intros H. unfold __init__, bind, get_owner, _parse_github_url, lift.
  rewrite (split_without_sep _ _ H). reflexivity.
Qed.

Lemma construction_needs_a_slash_witness :
  __init__ always_full "bar" [] = (Raise IndexError, []).
Proof.
  apply (construction_needs_a_slash always_full "bar" []). reflexivity.
Defined.

Lemma parse_ret url position log_text w x w' :
  _parse_github_url url position log_text w = (Ret x, w') ->
  py_index (split "/" url) position = Ret x /\ requested w' = requested w.
Proof.
  unfold _parse_github_url, bind, lift, logger_info, ret.
  destruct (py_index (split "/" url) position) as [y|e|]; try discriminate.
  intros H. injection H as <- <-. split; [reflexivity|].
  apply requested_info.
Qed.

Lemma logged_call_ret net msg api_endpoint extra_params w c w' :
  bind (logger_info msg)
       (fun _ => _paginated_api_call net api_endpoint extra_params) w
  = (Ret c, w') ->
  exists k, (1 <= k <= 10)%nat /\
    requested w'
    = (requested w
       ++ call_urls (get_api_url api_endpoint extra_params) k)%list.
Proof.
  intros H.
  destruct (TranscriptFacts.logged_call_requests net msg api_endpoint
              extra_params w) as (k & Hk & Hr).
  rewrite H in Hr. exists k. split; [exact Hk|exact Hr].
Qed.

(** X13: when construction succeeds, the instance keeps the URL, its owner and
    name are the last two segments of the URL, its stars are [None], and
    the requests made were those of the five collections in the order
    contributors, forks, releases, issues, commits, between one and ten
    for each. *)
Theorem construction_fetches_in_order net url w self w' :
  __init__ net url w = (Ret self, w') ->
  GithubRepo.url self = url /\
  stars self = None /\
  (exists pre, split "/" url = (pre ++ [owner self; name self])%list) /\
  exists k1 k2 k3 k4 k5,
    (1 <= k1 <= 10 /\ 1 <= k2 <= 10 /\ 1 <= k3 <= 10 /\
     1 <= k4 <= 10 /\ 1 <= k5 <= 10)%nat /\
    requested w'
    = (requested w
       ++ call_urls (get_api_url (repo_endpoint self "contributors") None) k1
       ++ call_urls (get_api_url (repo_endpoint self "forks") None) k2
       ++ call_urls (get_api_url (repo_endpoint self "releases") None) k3
       ++ call_urls (get_api_url (repo_endpoint self "issues")
                                 (Some "state=all")) k4
       ++ call_urls (get_api_url (repo_endpoint self "commits") None) k5)%list.
Proof.
  unfold __init__. intros H.
  apply bind_ret in H. destruct H as (o & w1 & Ho & H).
  apply bind_ret in H. destruct H as (n & w2 & Hn & H).
  apply bind_ret in H. destruct H as (c1 & w3 & H1 & H).
  apply bind_ret in H. destruct H as (c2 & w4 & H2 & H).
  apply bind_ret in H. destruct H as (c3 & w5 & H3 & H).
  apply bind_ret in H. destruct H as (s & w6 & Hs & H).
  apply bind_ret in H. destruct H as (c4 & w7 & H4 & H).
  apply bind_ret in H. destruct H as (c5 & w8 & H5 & H).
  unfold ret in H, Hs. injection H as <- <-. injection Hs as <- <-.
  apply parse_ret in Ho. destruct Ho as [Ho Hw1].
  apply parse_ret in Hn. destruct Hn as [Hn Hw2].
  apply logged_call_ret in H1. destruct H1 as (k1 & Hk1 & Hr1).
  apply logged_call_ret in H2. destruct H2 as (k2 & Hk2 & Hr2).
  apply logged_call_ret in H3. destruct H3 as (k3 & Hk3 & Hr3).
  apply logged_call_ret in H4. destruct H4 as (k4 & Hk4 & Hr4).
  apply logged_call_ret in H5. destruct H5 as (k5 & Hk5 & Hr5).
  cbn [GithubRepo.url stars owner name].
  split; [reflexivity|]. split; [reflexivity|]. split.
  - destruct (contains "/" url) eqn:Hc.
    + apply split_length_contains in Hc.
      destruct (two_last _ Hc) as (pre & o' & n' & E).
      exists pre. rewrite E in Ho, Hn |- *.
      rewrite py_index_second_last in Ho.
      change (pre ++ [o'; n'])%list with (pre ++ [o'] ++ [n'])%list in Hn.
      rewrite app_assoc, py_index_last in Hn.
      injection Ho as ->. injection Hn as ->. reflexivity.
    + rewrite (split_without_sep _ _ Hc) in Ho. discriminate Ho.
  - exists k1, k2, k3, k4, k5. split; [lia|].
    rewrite Hr5, Hr4, Hr3, Hr2, Hr1, Hw2, Hw1. cbn [owner name].
    rewrite <- !app_assoc. reflexivity.
Qed.

Lemma construction_fetches_in_order_witness :
  stars (mk "https://github.com/foo/bar" "foo" "bar"
            None None None None None None) = None.
Proof.
  apply (construction_fetches_in_order (scripted [])
           "https://github.com/foo/bar" []
           (mk "https://github.com/foo/bar" "foo" "bar"
               None None None None None None)
           (snd (__init__ (scripted []) "https://github.com/foo/bar" []))).
  reflexivity.
Defined.

Lemma bind_eq {A B} (m : M A) (k : A -> M B) w a w1 :
  m w = (Ret a, w1) -> bind m k w = k a w1.
Proof. unfold bind. intros ->. reflexivity. Qed.

Lemma parse_returns url position log_text w x :
  py_index (split "/" url) position = Ret x ->
  _parse_github_url url position log_text w
  = (Ret x, (w ++ [Info (format log_text [x])])%list).
Proof.
  intros H. unfold _parse_github_url, bind, lift, logger_info, ret.
  rewrite H. reflexivity.
Qed.

Lemma logged_call_fails net msg api_endpoint extra_params w :
  (forall hist u, net hist u = MaxRetryError) ->
  bind (logger_info msg)
       (fun _ => _paginated_api_call net api_endpoint extra_params) w
  = (Ret None,
     ((w ++ [Info msg])
      ++ first_events (get_api_url api_endpoint extra_params))%list).
Proof.
  intros H. unfold bind, logger_info, _paginated_api_call.
  rewrite (FetchFacts.call_first_fails net api_endpoint extra_params
             max_pages (w ++ [Info msg])%list (H _ _)).
  reflexivity.
Qed.

(** X14: when every request raises [MaxRetryError], construction still
    succeeds, after one request per collection: every collection of the
    instance is [None], and every total-count accessor then raises
    [TypeError]. *)
Theorem offline_construction_gives_empty_instance net url w :
  (forall hist u, net hist u = MaxRetryError) ->
  contains "/" url = true ->
  exists self w',
    __init__ net url w = (Ret self, w') /\
    contributors self = None /\ forks self = None /\
    releases self = None /\ issues self = None /\ commits self = None /\
    get_total_contributors self = Raise TypeError /\
    get_total_forks self = Raise TypeError /\
    get_total_releases self = Raise TypeError /\
    get_total_issues self = Raise TypeError /\
    get_total_commits self = Raise TypeError /\
    requested w'
    = (requested w
       ++ [get_api_url (repo_endpoint self "contributors") None;
           get_api_url (repo_endpoint self "forks") None;
           get_api_url (repo_endpoint self "releases") None;
           get_api_url (repo_endpoint self "issues") (Some "state=all");
           get_api_url (repo_endpoint self "commits") None])%list.
Proof.
  intros Hnet Hc. apply split_length_contains in Hc.
  destruct (two_last _ Hc) as (pre & o & n & E).
  assert (Ho : py_index (split "/" url) (-2) = Ret o)
    by (rewrite E; apply py_index_second_last).
  assert (Hn : py_index (split "/" url) (-1) = Ret n).
  { rewrite E. change (pre ++ [o; n])%list with (pre ++ [o] ++ [n])%list.
    rewrite app_assoc. apply py_index_last. }
  unfold __init__, get_owner, get_name, get_contributors, get_forks,
    get_releases, get_stars, get_issues, get_commits.
  rewrite (bind_eq _ _ _ _ _ (parse_returns url (-2) _ _ _ Ho)).
  rewrite (bind_eq _ _ _ _ _ (parse_returns url (-1) _ _ _ Hn)).
  cbv zeta.
  rewrite (bind_eq _ _ _ _ _ (logged_call_fails net _ _ _ _ Hnet)).
  rewrite (bind_eq _ _ _ _ _ (logged_call_fails net _ _ _ _ Hnet)).
  rewrite (bind_eq _ _ _ _ _ (logged_call_fails net _ _ _ _ Hnet)).
  rewrite (bind_eq _ _ _ _ _ (eq_refl : ret None _ = (Ret None, _))).
  rewrite (bind_eq _ _ _ _ _ (logged_call_fails net _ _ _ _ Hnet)).
  rewrite (bind_eq _ _ _ _ _ (logged_call_fails net _ _ _ _ Hnet)).
  eexists. eexists. split; [reflexivity|].
  repeat (split; [reflexivity|]).
  rewrite !requested_app. simpl. rewrite !app_nil_r, <- !app_assoc.
  reflexivity.
Qed.

Lemma offline_construction_gives_empty_instance_witness :
  exists self w',
    __init__ (scripted []) "https://github.com/foo/bar" [] = (Ret self, w') /\
    contributors self = None /\ forks self = None /\
    releases self = None /\ issues self = None /\ commits self = None /\
    get_total_contributors self = Raise TypeError /\
    get_total_forks self = Raise TypeError /\
    get_total_releases self = Raise TypeError /\
    get_total_issues self = Raise TypeError /\
    get_total_commits self = Raise TypeError /\
    requested w'
    = (requested []
       ++ [get_api_url (repo_endpoint self "contributors") None;
           get_api_url (repo_endpoint self "forks") None;
           get_api_url (repo_endpoint self "releases") None;
           get_api_url (repo_endpoint self "issues") (Some "state=all");
           get_api_url (repo_endpoint self "commits") None])%list.
Proof.
  apply (offline_construction_gives_empty_instance (scripted [])
           "https://github.com/foo/bar" []).
  - intros hist u. unfold scripted. destruct (List.length hist); reflexivity.
  - reflexivity.
Defined.

End InitFacts.

(** ** More on the date helper *)

Module CommitDateFacts.
Import Datetime.

Local Open Scope Z_scope.

(** The date string of any six numbers in the ranges of the digits is
    matched by the format, and is then a date or not as the constructor
    decides. *)
Lemma strptime_is_new Y m d H M S :
  0 <= Y <= 9999 -> 1 <= m <= 12 -> 1 <= d <= 31 ->
  0 <= H <= 23 -> 0 <= M <= 59 -> 0 <= S <= 59 ->
  strptime (commit_date_string Y m d H M S) = new Y m d H M S 0.
Proof.
  intros RY Rm Rd RH RM RS.
  destruct (DatetimeFacts.reads_all _ _ _ _ Y DatetimeFacts.reads_Y)
    as [fY iY]; [lia|].
  destruct (DatetimeFacts.reads_all _ _ _ _ m DatetimeFacts.reads_m)
    as [fm im]; [lia|].
  destruct (DatetimeFacts.reads_all _ _ _ _ d DatetimeFacts.reads_d)
    as [fd id]; [lia|].
  destruct (DatetimeFacts.reads_all _ _ _ _ H DatetimeFacts.reads_H)
    as [fH iH]; [lia|].
  destruct (DatetimeFacts.reads_all _ _ _ _ M DatetimeFacts.reads_M)
    as [fM iM]; [lia|].
  destruct (DatetimeFacts.reads_all _ _ _ _ S DatetimeFacts.reads_S)
    as [fS iS]; [lia|].
  unfold strptime, commit_date_string, commit_date_format.
  assert (E : match_items
                [re_Y; Lit "-"; re_m; Lit "-"; re_d; Lit "T";
                 re_H; Lit ":"; re_M; Lit ":"; re_S; Lit "Z"]
                (pad4 Y ++ "-" ++ pad2 m ++ "-" ++ pad2 d ++ "T"
                 ++ pad2 H ++ ":" ++ pad2 M ++ ":" ++ pad2 S ++ "Z")
              = Some ([pad4 Y; pad2 m; pad2 d; pad2 H; pad2 M; pad2 S],
                      EmptyString)).
  { apply (DatetimeFacts.match_field (alts_of re_Y)); [exact fY|].
    change ("-" ++ ?x)%string with (String "-" x).
    rewrite DatetimeFacts.match_lit.
    apply (DatetimeFacts.match_field (alts_of re_m)); [exact fm|].
    change ("-" ++ ?x)%string with (String "-" x).
    rewrite DatetimeFacts.match_lit.
    apply (DatetimeFacts.match_field (alts_of re_d)); [exact fd|].
    change ("T" ++ ?x)%string with (String "T" x).
    rewrite DatetimeFacts.match_lit.
    apply (DatetimeFacts.match_field (alts_of re_H)); [exact fH|].
    change (":" ++ ?x)%string with (String ":" x).
    rewrite DatetimeFacts.match_lit.
    apply (DatetimeFacts.match_field (alts_of re_M)); [exact fM|].
    change (":" ++ ?x)%string with (String ":" x).
    rewrite DatetimeFacts.match_lit.
    apply (DatetimeFacts.match_field (alts_of re_S)); [exact fS|].
    reflexivity. }
  rewrite E, iY, im, id, iH, iM, iS. reflexivity.
Qed.

(** X15: the comparison is strict, to the microsecond: a commit is not before
    a naive reference date equal to its own date, and is before the same
    date with any microseconds added. *)
Theorem commit_at_the_reference_date_is_not_before commit Y m d H M S :
  valid (mk Y m d H M S 0 None) = true ->
  author_date commit = Ret (JStr (commit_date_string Y m d H M S)) ->
  is_commit_before_date commit (mk Y m d H M S 0 None) = Ret false /\
  forall us, 0 < us <= 999999 ->
    is_commit_before_date commit (mk Y m d H M S us None) = Ret true.
Proof.
  intros Hv Hc. pose proof (DatetimeFacts.valid_ranges _ Hv) as R.
  cbn [year month day hour minute second microsecond] in R.
  pose proof (DatetimeFacts.days_in_month_le Y m) as Hd.
  unfold is_commit_before_date. rewrite Hc. cbn [obind].
  rewrite strptime_is_new by lia. unfold new. rewrite Hv. cbn [obind].
  unfold lt. cbn [utcoffset]. split.
  - rewrite DatetimeFacts.tuple_lt_wall_clock by exact Hv.
    rewrite Z.ltb_irrefl. reflexivity.
  - intros us Hus.
    assert (Hv' : valid (mk Y m d H M S us None) = true).
    { unfold valid in *.
      cbn [year month day hour minute second microsecond] in *.
      repeat (apply andb_true_iff in Hv; destruct Hv as [Hv ?]).
      repeat (apply andb_true_iff; split); try assumption;
        apply Z.leb_le; lia. }
    rewrite DatetimeFacts.tuple_lt_wall_clock by assumption.
    f_equal. apply Z.ltb_lt. unfold wall_clock, toordinal.
    cbn [year month day hour minute second microsecond]. lia.
Qed.

Lemma commit_at_the_reference_date_is_not_before_witness :
  is_commit_before_date (commit_dated "2020-02-29T12:30:00Z")
                        (mk 2020 2 29 12 30 0 0 None) = Ret false /\
  forall us, 0 < us <= 999999 ->
    is_commit_before_date (commit_dated "2020-02-29T12:30:00Z")
                          (mk 2020 2 29 12 30 0 us None) = Ret true.
Proof.
  apply (commit_at_the_reference_date_is_not_before
           (commit_dated "2020-02-29T12:30:00Z") 2020 2 29 12 30 0);
    reflexivity.
Defined.

(** X16: a date string that has the shape of the format but names no date (a
    day past the end of its month, the year 0000) raises [ValueError],
    whatever the reference date. *)
Theorem impossible_commit_date_raises commit Y m d H M S date :
  0 <= Y <= 9999 -> 1 <= m <= 12 -> 1 <= d <= 31 ->
  0 <= H <= 23 -> 0 <= M <= 59 -> 0 <= S <= 59 ->
  Y = 0 \/ days_in_month Y m < d ->
  author_date commit = Ret (JStr (commit_date_string Y m d H M S)) ->
  is_commit_before_date commit date = Raise ValueError.
Proof.
  intros RY Rm Rd RH RM RS Hbad Hc.
  unfold is_commit_before_date. rewrite Hc. cbn [obind].
  rewrite strptime_is_new by assumption. unfold new.
  replace (valid (mk Y m d H M S 0 None)) with false; [reflexivity|].
  symmetry. unfold valid.
  cbn [year month day hour minute second microsecond].
  destruct Hbad as [->|Hd].
  - reflexivity.
  - replace (d <=? days_in_month Y m) with false
      by (symmetry; apply Z.leb_gt; exact Hd).
    rewrite !andb_false_r. reflexivity.
Qed.

Lemma impossible_commit_date_raises_witness :
  is_commit_before_date (commit_dated "2021-02-29T00:00:00Z")
                        (mk 2022 1 1 0 0 0 0 None) = Raise ValueError.
Proof.
  apply (impossible_commit_date_raises
           (commit_dated "2021-02-29T00:00:00Z") 2021 2 29 0 0 0
           (mk 2022 1 1 0 0 0 0 None)); try lia.
  - right. vm_compute. reflexivity.
  - reflexivity.
Defined.

(** X17: a commit record of the wrong shape raises before any date is
    compared: [TypeError] when the record is not an object or when the
    date is not a string, [KeyError] when one of the keys [commit],
    [author], [date] is missing from its object. *)
Theorem malformed_commit_record_raises :
  (forall commit date,
      (forall fields, commit <> JObj fields) ->
      is_commit_before_date commit date = Raise TypeError) /\
  (forall fields date,
      assoc "commit" fields = None ->
      is_commit_before_date (JObj fields) date = Raise KeyError) /\
  (forall fields fields' date,
      assoc "commit" fields = Some (JObj fields') ->
      assoc "author" fields' = None ->
      is_commit_before_date (JObj fields) date = Raise KeyError) /\
  (forall fields fields' fields'' date,
      assoc "commit" fields = Some (JObj fields') ->
      assoc "author" fields' = Some (JObj fields'') ->
      assoc "date" fields'' = None ->
      is_commit_before_date (JObj fields) date = Raise KeyError) /\
  (forall commit v date,
      author_date commit = Ret v ->
      (forall s, v <> JStr s) ->
      is_commit_before_date commit date = Raise TypeError).
Proof.
  repeat split.
  - intros commit date H. destruct commit; try reflexivity.
    exfalso. eapply H. reflexivity.
  - intros fields date H. unfold is_commit_before_date, author_date.
    simpl. rewrite H. reflexivity.
  - intros fields fields' date H H'.
    unfold is_commit_before_date, author_date. simpl. rewrite H. simpl.
    rewrite H'. reflexivity.
  - intros fields fields' fields'' date H H' H''.
    unfold is_commit_before_date, author_date. simpl. rewrite H. simpl.
    rewrite H'. simpl. rewrite H''. reflexivity.
  - intros commit v date H Hv. unfold is_commit_before_date. rewrite H.
    destruct v; try reflexivity. exfalso. eapply Hv. reflexivity.
Qed.

Lemma malformed_commit_record_raises_witness :
  is_commit_before_date (JObj [("sha", JStr "abc")])
                        (mk 2022 1 1 0 0 0 0 None) = Raise KeyError.
Proof.
  apply (proj1 (proj2 malformed_commit_record_raises)
           [("sha", JStr "abc")] (mk 2022 1 1 0 0 0 0 None)).
  reflexivity.
Defined.

End CommitDateFacts.
